(** * The meme-generator script [a.py]: model and properties

    [a.py] is a Streamlit page.  Its button handler [main] reads the
    widgets, calls the coroutine [run_agent_with_debug] through
    [asyncio.run], and renders the pair that comes back.  Everything
    the script does beyond choosing constants and formatting text is a
    call into a library (Streamlit, browser-use, langchain), so the
    model is a trace of library calls together with an outcome: a value
    or a Python exception.  What the libraries answer is read from an
    environment record, over which every statement is quantified. *)

From Stdlib Require Import List NArith String Ascii Bool Lia PrimFloat.
Import ListNotations.

Set Warnings "-inexact-float".
Local Open Scope list_scope.

(** ** Python values *)

(** A Python [str] is a sequence of Unicode code points. *)
Definition codepoint := N.
Definition str := list codepoint.

(** Reading of a Python string literal of the source: every character
    of the literals used below is ASCII, and backslash-n is the only
    escape sequence that occurs in them. *)
Fixpoint unescape (l : list ascii) : str :=
  match l with
  | [] => []
  | "\"%char :: "n"%char :: rest => 10%N :: unescape rest
  | c :: rest => N_of_ascii c :: unescape rest
  end.

Definition py (s : string) : str := unescape (list_ascii_of_string s).
Arguments py s%_string.

(** [==] on two [str] values. *)
Fixpoint str_eqb (a b : str) : bool :=
  match a, b with
  | [], [] => true
  | x :: a', y :: b' => N.eqb x y && str_eqb a' b'
  | _, _ => false
  end.

(** [str(b)] and [f"{b}"] for a [bool]. *)
Definition str_of_bool (b : bool) : str :=
  if b then py "True" else py "False".

(** Truth value of a [str], of a [list] and of an optional [str] in an
    [if]: empty and [None] are false. *)
Definition truthy_str (s : str) : bool :=
  match s with [] => false | _ :: _ => true end.

Definition truthy_list {A : Type} (l : list A) : bool :=
  match l with [] => false | _ :: _ => true end.

Definition truthy_result (r : option str) : bool :=
  match r with None => false | Some s => truthy_str s end.

(** ** Exceptions and outcomes *)

(** Of a raised exception the script looks at two things: whether it is
    an instance of [Exception] (the [except Exception] clauses) and its
    [str(e)].  [KeyboardInterrupt], [asyncio.CancelledError] and
    Streamlit's script-control exceptions derive from [BaseException]
    only. *)
Record exn : Type := Exn {
  is_Exception : bool;
  exn_str : str
}.

Inductive outcome (A : Type) : Type :=
| Returns (a : A)
| Raises (e : exn).
Arguments Returns {A} a.
Arguments Raises {A} e.

(** ** Library objects *)

Record ChatOpenAI : Type := {
  llm_base_url : str;
  llm_model : str;
  llm_api_key : str;
  llm_default_headers : list (str * str);
  llm_temperature : float
}.

Record BrowserConfig : Type := { headless_of : bool }.

Record Browser : Type := { config : BrowserConfig }.

Record Agent : Type := {
  agent_task : str;
  agent_llm : ChatOpenAI;
  agent_browser : Browser;
  use_vision : bool;
  max_failures : N;
  max_actions_per_step : N
}.

(** The history an agent run returns; [final_result()] yields an
    optional string. *)
Record AgentHistoryList : Type := {
  final_result : outcome (option str)
}.

(** Streamlit elements the script keeps a handle on. *)
Inductive element : Type :=
| Placeholder
| Expander (label : str) (expanded : bool).

(** ** Traces *)

(** One event per library call, in program order.
    [Enter_run_agent_with_debug] marks the entry into the coroutine and
    records its arguments. *)
Inductive event : Type :=
| Enter_run_agent_with_debug (query model_choice api_key : str) (headless : bool)
| New_ChatOpenAI (llm : ChatOpenAI)
| New_Browser (b : Browser)
| New_Agent (a : Agent)
| Element_info (el : element) (msg : str)
| Element_code (el : element) (body : str)
| Agent_run (a : Agent)
| History_final_result
| Browser_close (b : Browser)
| St_set_page_config (page_title page_icon : str)
| St_title (body : str)
| St_header (body : str)
| St_text_input (label value : str)
| St_selectbox (label : str) (options : list str)
| St_checkbox (label : str) (value : bool)
| St_button (label : str)
| St_empty
| St_expander (label : str) (expanded : bool)
| St_spinner (text : str)
| St_error (body : str)
| St_json (body : list str)
| St_success (body : str)
| St_markdown (body : str)
| St_image (url : str)
| St_warning (body : str)
| St_stop.

(** ** The environment *)

(** What lies outside [a.py]: the platform, the answers of the
    libraries to the calls of [run_agent_with_debug] (the three
    constructors and [status_box.info] before the [try] statement, the
    agent run and [browser.close()] inside it), the text the libraries
    print while the agent runs, and the Unicode table that decides which
    code points from 128 on are alphanumeric. *)
Record world : Type := {
  platform_system : str;
  new_ChatOpenAI : ChatOpenAI -> outcome unit;
  new_Browser : Browser -> outcome unit;
  new_Agent : Agent -> outcome unit;
  element_info : element -> str -> outcome unit;
  agent_run : Agent -> outcome AgentHistoryList;
  browser_close : Browser -> outcome unit;
  captured_stdout : str;
  unicode_isalnum : codepoint -> bool
}.

(** Widget state of the browser session when the script runs: [None]
    for a widget the user has not touched. *)
Record session_state : Type := {
  api_key_input : option str;
  model_select : option nat;
  headless_check : option bool;
  meme_query_input : option str;
  run_button : bool
}.

(** ** Computations: a trace and an outcome *)

Definition M (A : Type) : Type := (list event * outcome A)%type.

Definition trace {A : Type} (m : M A) : list event := fst m.
Definition answer {A : Type} (m : M A) : outcome A := snd m.

Definition ret {A : Type} (a : A) : M A := ([], Returns a).

Definition bind {A B : Type} (m : M A) (k : A -> M B) : M B :=
  match m with
  | (t, Returns a) => (t ++ fst (k a), snd (k a))
  | (t, Raises e) => (t, Raises e)
  end.

(** A library call: the event and the library's answer. *)
Definition call {A : Type} (ev : event) (r : outcome A) : M A := ([ev], r).

(** A call that returns.  The Streamlit calls of [main] are taken to
    return; every library call of [run_agent_with_debug] has the outcome
    the environment gives it. *)
Definition emit (ev : event) : M unit := call ev (Returns tt).

(** [try: body / except Exception as e: handler e]. *)
Definition try_except {A : Type} (body : M A) (handler : exn -> M A) : M A :=
  match body with
  | (t, Returns a) => (t, Returns a)
  | (t, Raises e) =>
      if is_Exception e then (t ++ fst (handler e), snd (handler e))
      else (t, Raises e)
  end.

(** [try: body / finally: fin]: [fin] always runs; when it raises, its
    exception replaces the outcome of [body]. *)
Definition try_finally {A : Type} (body : M A) (fin : M unit) : M A :=
  match fin with
  | (t', Returns _) => (fst body ++ t', snd body)
  | (t', Raises e') => (fst body ++ t', Raises e')
  end.

Declare Scope py_scope.
Delimit Scope py_scope with py_.
Notation "x <- c1 ;; c2" := (bind c1 (fun x => c2))
  (at level 61, c1 at next level, right associativity) : py_scope.
Notation "' pat <- c1 ;; c2" := (bind c1 (fun x => match x with pat => c2 end))
  (at level 61, pat pattern, c1 at next level, right associativity) : py_scope.
Notation "c1 ;; c2" := (bind c1 (fun _ => c2))
  (at level 61, right associativity) : py_scope.
Local Open Scope py_scope.

(** ** [run_agent_with_debug] *)

(** Lines 25-33: the model name and temperature for a dropdown key. *)
Definition configure_model (model_choice : str) : str * float :=
  if str_eqb model_choice (py "Claude") then
    (py "meta-llama/llama-3.3-70b-instruct:free", 0.7%float)
  else if str_eqb model_choice (py "Deepseek") then
    (py "nex-agi/deepseek-v3.1-nex-n1:free", 0.3%float)
  else
    (py "openai/gpt-oss-120b:free", 0.1%float).

(** Lines 44-55: adjacent string literals are concatenated; only the
    first one carries the [f] prefix, so only there is [{query}] a
    replacement field. *)
Definition task (query : str) : str :=
  (py "Generate a meme about: '" ++ query ++ py "'.\n")
  ++ py "STRICT STEPS:\n"
  ++ py "1. GO TO 'https://imgflip.com/memetemplates'.\n"
  ++ py "2. TYPE a simple keyword related to '{query}' into the search box.\n"
  ++ py "3. CLICK on the first matching template image.\n"
  ++ py "4. WAIT for the 'Caption this Meme' button or text boxes to load.\n"
  ++ py "5. CLICK inside the Top Text box and TYPE a setup.\n"
  ++ py "6. CLICK inside the Bottom Text box and TYPE a punchline.\n"
  ++ py "7. CLICK 'Generate Meme'.\n"
  ++ py "8. EXTRACT and RETURN the image URL starting with 'https://i.imgflip.com'.\n".

Section Script.

Variable env : world.

Definition run_agent_with_debug
    (query model_choice api_key : str) (headless : bool) (status_box : element)
    : M (option str * list str) :=
  emit (Enter_run_agent_with_debug query model_choice api_key headless) ;;
  let headers :=
    [(py "HTTP-Referer", py "http://localhost:8501");
     (py "X-Title", py "MemeGen Debug")] in
  let '(model, temp) := configure_model model_choice in
  let llm :=
    {| llm_base_url := py "https://openrouter.ai/api/v1";
       llm_model := model;
       llm_api_key := api_key;
       llm_default_headers := headers;
       llm_temperature := temp |} in
  call (New_ChatOpenAI llm) (new_ChatOpenAI env llm) ;;
  let task := task query in
  let browser := {| config := {| headless_of := headless |} |} in
  call (New_Browser browser) (new_Browser env browser) ;;
  let agent :=
    {| agent_task := task;
       agent_llm := llm;
       agent_browser := browser;
       use_vision := false;
       max_failures := 3;
       max_actions_per_step := 1 |} in
  call (New_Agent agent) (new_Agent env agent) ;;
  (let msg :=
     128640%N :: py " Launching Browser (Headless: "
       ++ str_of_bool headless ++ py ")..." in
   call (Element_info status_box msg) (element_info env status_box msg)) ;;
  let final_result0 : option str := None in
  let errors : list str := [] in
  '(final_result1, errors) <-
    try_finally
      (try_except
         (history <- call (Agent_run agent) (agent_run env agent) ;;
          final_result1 <- call History_final_result (final_result history) ;;
          ret (final_result1, errors))
         (fun e => ret (final_result0, errors ++ [exn_str e])))
      (call (Browser_close browser) (browser_close env browser)) ;;
  ret (final_result1, errors).

(** ** The regular expression of line 140 *)

(** [r'(https://i\.imgflip\.com/\w+\.jpg)'] is a sequence of literal
    characters around one [\w+]; the parentheses make group 1 the
    whole match. *)
Inductive atom : Type :=
| Chr (c : codepoint)
| WordPlus.

Definition url_pattern : list atom :=
  map Chr (py "https://i.imgflip.com/") ++ [WordPlus] ++ map Chr (py ".jpg").

(** [\w] on a [str] pattern: alphanumeric or underscore. *)
Definition is_word (c : codepoint) : bool :=
  if (c <? 128)%N then
    ((48 <=? c) && (c <=? 57) || (65 <=? c) && (c <=? 90)
     || (97 <=? c) && (c <=? 122) || (c =? 95))%N
  else unicode_isalnum env c.

(** [\w+] followed by the rest of the pattern [k], at the start of
    [s].  The repetition is greedy: after a word character it first
    tries to take one more, and gives characters back only when that
    fails. *)
Fixpoint word_plus (k : str -> option str) (s : str) : option str :=
  match s with
  | x :: s' =>
      if is_word x then
        match word_plus k s' with
        | Some m => Some (x :: m)
        | None => option_map (cons x) (k s')
        end
      else None
  | [] => None
  end.

(** Backtracking match of a pattern at the start of [s]; the answer is
    the matched text. *)
Fixpoint match_here (p : list atom) (s : str) {struct p} : option str :=
  match p with
  | [] => Some []
  | Chr c :: p' =>
      match s with
      | x :: s' =>
          if N.eqb x c then option_map (cons x) (match_here p' s') else None
      | [] => None
      end
  | WordPlus :: p' => word_plus (match_here p') s
  end.

(** [re.search]: the match at the leftmost position that has one. *)
Fixpoint re_search (p : list atom) (s : str) : option str :=
  match match_here p s with
  | Some m => Some m
  | None =>
      match s with
      | [] => None
      | _ :: s' => re_search p s'
      end
  end.

(** ** [main] *)

(** Widgets return what the session holds for them, or their default. *)
Definition st_text_input (label : str) (value : str) (held : option str) : M str :=
  call (St_text_input label value)
       (Returns match held with Some s => s | None => value end).

(** The dropdown holds a position in its option list; it starts at the
    first option. *)
Definition st_selectbox (label : str) (options : list str) (held : option nat)
    : M str :=
  call (St_selectbox label options)
       (Returns (nth match held with Some i => i | None => 0 end options
                     (hd [] options))).

Definition st_checkbox (label : str) (value : bool) (held : option bool) : M bool :=
  call (St_checkbox label value)
       (Returns match held with Some b => b | None => value end).

Definition st_button (label : str) (clicked : bool) : M bool :=
  call (St_button label) (Returns clicked).

(** [st.stop()] ends the script run by raising a script-control
    exception, which is not an [Exception]. *)
Definition StopException : exn := {| is_Exception := false; exn_str := [] |}.

Definition st_stop {A : Type} : M A := call St_stop (Raises StopException).

Definition st_empty : M element := call St_empty (Returns Placeholder).

Definition st_expander (label : str) (expanded : bool) : M element :=
  call (St_expander label expanded) (Returns (Expander label expanded)).

Definition model_options : list str := [py "Deepseek"; py "Claude"; py "OpenAI"].

(** Lines 128-146: what the handler does with the pair once the call
    has returned. *)
Definition render (log_expander : element) (returned : option str * list str)
    : M unit :=
  let '(result, errors) := returned in
  let logs := captured_stdout env in
  emit (Element_code log_expander logs) ;;
  (if truthy_list errors then
     emit (St_error (128165%N :: py " The Agent crashed!")) ;;
     emit (St_json errors)
   else ret tt) ;;
  if truthy_result result then
    let result := match result with Some r => r | None => [] end in
    emit (St_success (py "Agent Finished!")) ;;
    emit (St_markdown (py "### Result:\n" ++ result)) ;;
    let url_match := re_search url_pattern result in
    match url_match with
    | Some group1 => emit (St_image group1)
    | None => emit (St_warning (py "No image link found in result."))
    end
  else
    emit (St_warning (py "Agent finished but returned no result.")).

Definition main (ss : session_state) : M unit :=
  emit (St_set_page_config (py "AI Meme Debugger") [128030%N]) ;;
  emit (St_title (128030%N :: py " AI Meme Generator (Fixed)")) ;;
  emit (St_header (py "Settings")) ;;
  api_key <- st_text_input (py "OpenRouter Key") [] (api_key_input ss) ;;
  model <- st_selectbox (py "Model") model_options (model_select ss) ;;
  let is_cloud := str_eqb (platform_system env) (py "Linux") in
  headless <- st_checkbox (py "Headless Mode") is_cloud (headless_check ss) ;;
  query <- st_text_input (py "Meme Prompt") (py "Programmers working on friday")
             (meme_query_input ss) ;;
  clicked <- st_button (py "Run Agent") (run_button ss) ;;
  if clicked then
    (if negb (truthy_str api_key) then
       emit (St_error (py "Need API Key")) ;;
       st_stop
     else ret tt) ;;
    status <- st_empty ;;
    log_expander <- st_expander (128221%N :: py " Live Logs") true ;;
    emit (St_spinner (py "Agent is working...")) ;;
    try_except
      (returned <- run_agent_with_debug query model api_key headless status ;;
       render log_expander returned)
      (fun e => emit (St_error (py "Critical Error: " ++ exn_str e)))
  else ret tt.

End Script.

Arguments py : simpl never.
Arguments task : simpl never.
Arguments str_of_bool : simpl never.
Arguments url_pattern : simpl never.
Arguments model_options : simpl never.

(** ** What the specification says, in its own words *)

(** The task description with the query substituted at both places
    where the template refers to it. *)
Definition task_as_specified (query : str) : str :=
  py "Generate a meme about: '" ++ query ++ py "'.\n"
  ++ py "STRICT STEPS:\n"
  ++ py "1. GO TO 'https://imgflip.com/memetemplates'.\n"
  ++ py "2. TYPE a simple keyword related to '" ++ query
  ++ py "' into the search box.\n"
  ++ py "3. CLICK on the first matching template image.\n"
  ++ py "4. WAIT for the 'Caption this Meme' button or text boxes to load.\n"
  ++ py "5. CLICK inside the Top Text box and TYPE a setup.\n"
  ++ py "6. CLICK inside the Bottom Text box and TYPE a punchline.\n"
  ++ py "7. CLICK 'Generate Meme'.\n"
  ++ py "8. EXTRACT and RETURN the image URL starting with 'https://i.imgflip.com'.\n".

Section Pattern.

Variable env : world.

(** A text of the form [https://i.imgflip.com/], one or more word
    characters, [.jpg]. *)
Definition image_url (u : str) : Prop :=
  exists w : str,
    w <> [] /\ Forall (fun c => is_word env c = true) w
    /\ u = py "https://i.imgflip.com/" ++ w ++ py ".jpg".

(** [u] is the substring of [s] that starts at position [i]. *)
Definition occurs_at (u s : str) (i : nat) : Prop :=
  exists pre post : str, s = pre ++ u ++ post /\ List.length pre = i.

Definition contains_image_url (s : str) : Prop :=
  exists (u : str) (i : nat), image_url u /\ occurs_at u s i.

(** [u] is the match that starts leftmost in [s]. *)
Definition first_image_url (s u : str) : Prop :=
  exists i : nat,
    image_url u /\ occurs_at u s i
    /\ forall (j : nat) (u' : str),
         (j < i)%nat -> image_url u' -> ~ occurs_at u' s j.

End Pattern.

(** ** Sample environments and sessions *)

(** [asyncio.CancelledError] derives from [BaseException] only. *)
Definition CancelledError : exn := {| is_Exception := false; exn_str := [] |}.

Definition TimeoutError : exn :=
  {| is_Exception := true; exn_str := py "Timeout 30000ms exceeded." |}.

Definition BrowserGone : exn :=
  {| is_Exception := true; exn_str := py "Browser has been closed" |}.

Definition history_with (r : option str) : AgentHistoryList :=
  {| final_result := Returns r |}.

Definition world_of (system : str) (run : outcome AgentHistoryList)
    (close : outcome unit) : world :=
  {| platform_system := system;
     new_ChatOpenAI := fun _ => Returns tt;
     new_Browser := fun _ => Returns tt;
     new_Agent := fun _ => Returns tt;
     element_info := fun _ _ => Returns tt;
     agent_run := fun _ => run;
     browser_close := fun _ => close;
     captured_stdout := py "INFO [agent] Starting task";
     unicode_isalnum := fun _ => false |}.

Definition world_meme : world :=
  world_of (py "Linux")
    (Returns (history_with
       (Some (py "Here it is: https://i.imgflip.com/9x_k2a.jpg"))))
    (Returns tt).

Definition world_empty_result : world :=
  world_of (py "Linux") (Returns (history_with (Some []))) (Returns tt).

Definition world_cancelled : world :=
  world_of (py "Linux") (Raises CancelledError) (Returns tt).

Definition world_timeout : world :=
  world_of (py "Darwin") (Raises TimeoutError) (Returns tt).

Definition world_close_fails : world :=
  world_of (py "Linux") (Raises TimeoutError) (Raises BrowserGone).

Definition session_clicked : session_state :=
  {| api_key_input := Some (py "sk-or-v1-0000");
     model_select := Some 1%nat;
     headless_check := None;
     meme_query_input := None;
     run_button := true |}.

Definition session_no_key : session_state :=
  {| api_key_input := None;
     model_select := None;
     headless_check := Some false;
     meme_query_input := Some (py "cats");
     run_button := true |}.

(** Number of [browser.close()] calls in a trace. *)
Definition is_close (ev : event) : bool :=
  match ev with Browser_close _ => true | _ => false end.

Definition count_close (t : list event) : nat := List.length (filter is_close t).

(** ** Further sample environments *)

(** A history whose [final_result()] fails. *)
Definition HistoryError : exn :=
  {| is_Exception := true; exn_str := py "list index out of range" |}.

Definition world_no_final_result : world :=
  world_of (py "Linux") (Returns {| final_result := Raises HistoryError |})
    (Returns tt).


Definition AgentError : exn :=
  {| is_Exception := true; exn_str := py "Browser profile is not supported" |}.


Definition world_no_agent : world :=
  {| platform_system := py "Linux";
     new_ChatOpenAI := fun _ => Returns tt;
     new_Browser := fun _ => Returns tt;
     new_Agent := fun _ => Raises AgentError;
     element_info := fun _ _ => Returns tt;
     agent_run := fun _ => Returns (history_with None);
     browser_close := fun _ => Returns tt;
     captured_stdout := [];
     unicode_isalnum := fun _ => false |}.

(** The user has unticked the checkbox on a Linux host. *)
Definition session_unchecked : session_state :=
  {| api_key_input := Some (py "sk-or-v1-0000");
     model_select := Some 2%nat;
     headless_check := Some false;
     meme_query_input := Some (py "cats");
     run_button := true |}.

Definition session_idle : session_state :=
  {| api_key_input := None;
     model_select := None;
     headless_check := None;
     meme_query_input := None;
     run_button := false |}.


(** ** Proof steps that recur *)

(** Membership in a list that is given element by element: as a
    hypothesis, and as a goal on closed terms. *)
Ltac in_cases H :=
  simpl in H;
  repeat match type of H with _ \/ _ => destruct H as [H|H] end;
  try discriminate H; try contradiction.

Ltac in_tac := vm_compute; repeat (try (left; reflexivity); right).

(** * Properties *)
(** ** Strings *)

Lemma str_eqb_eq (a b : str) : str_eqb a b = true <-> a = b.
Proof.
  revert b; induction a as [|x a IH]; intros [|y b]; simpl;
    try (split; [discriminate | congruence]); [tauto|].
  rewrite andb_true_iff, N.eqb_eq, IH.
  split; [intros [-> ->]; reflexivity | intros E; injection E; auto].
Qed.

Lemma str_eqb_neq (a b : str) : str_eqb a b = false <-> a <> b.
Proof.
  rewrite <- str_eqb_eq. destruct (str_eqb a b); split; congruence.
Qed.

Lemma truthy_str_true (s : str) : truthy_str s = true <-> s <> [].
Proof. destruct s; simpl; split; congruence. Qed.

Lemma truthy_list_true {A : Type} (l : list A) : truthy_list l = true <-> l <> [].
Proof. destruct l; simpl; split; congruence. Qed.

Lemma truthy_result_true (r : option str) :
  truthy_result r = true <-> exists s, r = Some s /\ s <> [].
Proof.
  destruct r as [[|c s]|]; simpl; split; try discriminate.
  - intros (s & E & N). injection E as <-. congruence.
  - intros _. eexists; split; [reflexivity | discriminate].
  - intros (s' & E & N). injection E as <-. reflexivity.
  - intros (s & E & _). discriminate.
Qed.

(** ** The pattern matcher *)

Section Matcher.

Variable env : world.

Lemma match_here_literal (l : str) (q : list atom) (s m : str) :
  match_here env (map Chr l ++ q) s = Some m <->
  exists s' m', s = l ++ s' /\ match_here env q s' = Some m' /\ m = l ++ m'.
Proof.
  revert s m; induction l as [|c l IH]; intros s m; simpl.
  - split.
    + intros H. exists s, m. auto.
    + intros (s' & m' & -> & H & ->). exact H.
  - destruct s as [|x s].
    + split; [discriminate|]. intros (s' & m' & E & _). discriminate.
    + destruct (N.eqb_spec x c) as [->|N].
      * destruct (match_here env (map Chr l ++ q) s) as [m0|] eqn:E; simpl.
        -- apply IH in E. destruct E as (s' & m' & -> & H & ->).
           split.
           ++ intros E. injection E as <-. exists s', m'. auto.
           ++ intros (s2 & m2 & E1 & H2 & ->).
              injection E1 as E1. apply app_inv_head in E1. subst s2.
              rewrite H in H2. injection H2 as <-. reflexivity.
        -- split; [discriminate|].
           intros (s' & m' & E1 & H & ->). injection E1 as ->.
           assert (X : match_here env (map Chr l ++ q) (l ++ s') = Some (l ++ m'))
             by (apply IH; eauto).
           congruence.
      * split; [discriminate|].
        intros (s' & m' & E1 & _). injection E1 as E1 _. congruence.
Qed.

Lemma match_here_chars (l s m : str) :
  match_here env (map Chr l) s = Some m <-> m = l /\ exists post, s = l ++ post.
Proof.
  rewrite <- (app_nil_r (map Chr l)), match_here_literal. simpl. split.
  - intros (s' & m' & -> & E & ->). injection E as <-.
    rewrite app_nil_r. eauto.
  - intros (-> & post & ->). exists post, []. rewrite app_nil_r. auto.
Qed.

Lemma word_plus_sound (k : str -> option str) (s m : str) :
  word_plus env k s = Some m ->
  exists w s' m',
    w <> [] /\ Forall (fun c => is_word env c = true) w
    /\ s = w ++ s' /\ k s' = Some m' /\ m = w ++ m'.
Proof.
  revert m; induction s as [|x s IH]; intros m; simpl; [discriminate|].
  destruct (is_word env x) eqn:W; [|discriminate].
  destruct (word_plus env k s) as [m0|].
  - intros E; injection E as <-.
    destruct (IH m0 eq_refl) as (w & s' & m' & _ & F & -> & K & ->).
    exists (x :: w), s', m'. repeat split; auto. discriminate.
  - destruct (k s) as [m0|] eqn:K; simpl; [|discriminate].
    intros E; injection E as <-.
    exists [x], s, m0. repeat split; auto. discriminate.
Qed.

(** When the rest of the pattern can only start at a character that is
    not a word character, the greedy repetition stops exactly where the
    word characters stop. *)
Lemma word_plus_complete (k : str -> option str) (w s' m' : str) :
  (forall s m, k s = Some m -> exists c rest, s = c :: rest /\ is_word env c = false) ->
  w <> [] -> Forall (fun c => is_word env c = true) w -> k s' = Some m' ->
  word_plus env k (w ++ s') = Some (w ++ m').
Proof.
  intros Hk N F K. induction F as [|x w Wx F IH]; [congruence|].
  simpl. rewrite Wx. destruct w as [|y w].
  - simpl. destruct (Hk _ _ K) as (c & rest & -> & Wc). simpl.
    rewrite Wc. simpl in K. rewrite K. reflexivity.
  - rewrite IH; [reflexivity | discriminate].
Qed.

Lemma is_word_dot : is_word env 46%N = false.
Proof. reflexivity. Qed.

(** What the pattern matches at the start of a string. *)
Lemma match_here_url (s u : str) :
  match_here env url_pattern s = Some u <->
  image_url env u /\ exists post, s = u ++ post.
Proof.
  unfold url_pattern. rewrite match_here_literal.
  change ([WordPlus] ++ map Chr (py ".jpg")) with (WordPlus :: map Chr (py ".jpg")).
  split.
  - intros (s1 & m1 & -> & H & ->).
    change (word_plus env (match_here env (map Chr (py ".jpg"))) s1 = Some m1) in H.
    apply word_plus_sound in H.
    destruct H as (w & s2 & m2 & N & F & -> & K & ->).
    apply match_here_chars in K. destruct K as (-> & post & ->).
    split.
    + exists w. auto.
    + exists post. now rewrite <- !app_assoc.
  - intros ((w & N & F & ->) & post & ->).
    exists (w ++ py ".jpg" ++ post), (w ++ py ".jpg").
    split; [now rewrite <- !app_assoc|]. split; [|reflexivity].
    change (word_plus env (match_here env (map Chr (py ".jpg")))
              (w ++ py ".jpg" ++ post) = Some (w ++ py ".jpg")).
    apply word_plus_complete; [ | exact N | exact F | ].
    + intros s m K. apply match_here_chars in K.
      destruct K as (_ & rest & ->). exists 46%N. eexists.
      split; [reflexivity | apply is_word_dot].
    + apply match_here_chars. eauto.
Qed.

Lemma match_here_url_none (s : str) :
  match_here env url_pattern s = None <->
  forall u, image_url env u -> ~ occurs_at u s 0.
Proof.
  split.
  - intros H u I (pre & post & -> & L).
    destruct pre; [|discriminate]. cbn [app] in H.
    assert (X : match_here env url_pattern (u ++ post) = Some u)
      by (apply match_here_url; eauto).
    rewrite X in H. discriminate.
  - intros H. destruct (match_here env url_pattern s) as [u|] eqn:E; [|reflexivity].
    apply match_here_url in E. destruct E as (I & post & ->).
    exfalso. apply (H u I). exists [], post. auto.
Qed.

Lemma occurs_at_cons (u : str) (c : codepoint) (s : str) (i : nat) :
  occurs_at u (c :: s) (S i) <-> occurs_at u s i.
Proof.
  split.
  - intros (pre & post & E & L). destruct pre as [|x pre]; [discriminate|].
    injection E as -> ->. injection L as L. exists pre, post. auto.
  - intros (pre & post & -> & L). exists (c :: pre), post. simpl. auto.
Qed.

Lemma occurs_at_nil (u : str) (i : nat) : occurs_at u [] (S i) -> False.
Proof. intros (pre & post & E & L). destruct pre; discriminate. Qed.

Lemma re_search_hit (p : list atom) (s m : str) :
  match_here env p s = Some m -> re_search env p s = Some m.
Proof. intros H. destruct s; cbn [re_search]; rewrite H; reflexivity. Qed.

Lemma re_search_miss (p : list atom) (c : codepoint) (s : str) :
  match_here env p (c :: s) = None ->
  re_search env p (c :: s) = re_search env p s.
Proof. intros H. cbn [re_search]. rewrite H. reflexivity. Qed.

(** [re.search] returns the leftmost match. *)
Lemma re_search_url (s u : str) :
  re_search env url_pattern s = Some u <-> first_image_url env s u.
Proof.
  split.
  - revert u; induction s as [|c s IH]; intros u; cbn [re_search];
      destruct (match_here env url_pattern _) as [m|] eqn:E.
    + intros X; injection X as <-. apply match_here_url in E.
      destruct E as (I & post & E). exists 0%nat. split; [exact I|]. split.
      * exists [], post. auto.
      * intros j u' L. lia.
    + discriminate.
    + intros X; injection X as <-. apply match_here_url in E.
      destruct E as (I & post & E). exists 0%nat. split; [exact I|]. split.
      * exists [], post. auto.
      * intros j u' L. lia.
    + intros X. destruct (IH u X) as (i & I & O & Min).
      exists (S i). split; [exact I|]. split; [now apply occurs_at_cons|].
      intros [|j] u' L I'.
      * now apply (proj1 (match_here_url_none _) E).
      * rewrite occurs_at_cons. apply Min; [lia | exact I'].
  - intros (i & I & O & Min). revert s O Min.
    induction i as [|i IH]; intros s O Min.
    + destruct O as (pre & post & -> & L). destruct pre; [|discriminate].
      cbn [app]. apply re_search_hit, match_here_url. eauto.
    + destruct s as [|c s]; [now apply occurs_at_nil in O|].
      destruct (match_here env url_pattern (c :: s)) as [m|] eqn:E.
      * exfalso. apply match_here_url in E. destruct E as (I' & post & E).
        apply (Min 0%nat m); [lia | exact I' |]. exists [], post. auto.
      * rewrite (re_search_miss _ _ _ E).
        apply IH; [now apply occurs_at_cons in O|].
        intros j u' L I'. rewrite <- (occurs_at_cons u' c). apply Min; [lia|exact I'].
Qed.

Lemma re_search_url_none (s : str) :
  re_search env url_pattern s = None <-> ~ contains_image_url env s.
Proof.
  split.
  - induction s as [|c s IH]; cbn [re_search];
      destruct (match_here env url_pattern _) eqn:E; try discriminate;
      intros H (u & i & I & O).
    + destruct i; [|now apply occurs_at_nil in O].
      now apply (proj1 (match_here_url_none _) E u).
    + destruct i.
      * now apply (proj1 (match_here_url_none _) E u).
      * apply IH; [exact H|]. exists u, i. split; [exact I|].
        now apply occurs_at_cons in O.
  - intros H. destruct (re_search env url_pattern s) as [u|] eqn:E; [|reflexivity].
    apply re_search_url in E. destruct E as (i & I & O & _).
    exfalso. apply H. exists u, i. auto.
Qed.

End Matcher.

(** The search on sample texts: a prefix without word characters is
    passed over, the leftmost match wins, and a character that is not a
    word character between the slash and [.jpg] prevents the match. *)
Example re_search_leftmost :
  re_search world_meme url_pattern
    (py "no https://i.imgflip.com/.jpg but https://i.imgflip.com/a_1.jpg and https://i.imgflip.com/zz.jpg")
  = Some (py "https://i.imgflip.com/a_1.jpg").
Proof. reflexivity. Qed.

Example re_search_stops_at_first_suffix :
  re_search world_meme url_pattern (py "https://i.imgflip.com/abc.jpg.jpg")
  = Some (py "https://i.imgflip.com/abc.jpg").
Proof. reflexivity. Qed.

Example re_search_dash :
  re_search world_meme url_pattern (py "https://i.imgflip.com/a-b.jpg") = None.
Proof. reflexivity. Qed.

Example re_search_png :
  re_search world_meme url_pattern (py "https://i.imgflip.com/abc.png") = None.
Proof. reflexivity. Qed.

(** ** [run_agent_with_debug]: its trace and its answer *)

Section RunFacts.

Variable env : world.
Variables query model_choice api_key : str.
Variable headless : bool.
Variable status_box : element.

Local Abbreviation run :=
  (run_agent_with_debug env query model_choice api_key headless status_box).

Local Abbreviation browser0 := {| config := {| headless_of := headless |} |}.

(** An invocation either stops at one of the four calls before the
    [try] statement, raising what that call raised, or reaches the
    [try] statement.  From there on it makes the same calls in the same
    order, only the call of [final_result()] depends on how the agent
    run ended, and the answer is decided by the three calls of the
    [try] statement. *)
Lemma run_cases :
  (exists (e : exn) (llm : ChatOpenAI) (agent : Agent) (msg : str)
          (setup : list event),
     trace run
     = Enter_run_agent_with_debug query model_choice api_key headless
       :: New_ChatOpenAI llm :: setup
     /\ answer run = Raises e
     /\ (llm_model llm, llm_temperature llm) = configure_model model_choice
     /\ llm_api_key llm = api_key
     /\ (setup = [] /\ new_ChatOpenAI env llm = Raises e
         \/ setup = [New_Browser browser0]
            /\ new_ChatOpenAI env llm = Returns tt
            /\ new_Browser env browser0 = Raises e
         \/ setup = [New_Browser browser0; New_Agent agent]
            /\ new_ChatOpenAI env llm = Returns tt
            /\ new_Browser env browser0 = Returns tt
            /\ new_Agent env agent = Raises e
         \/ setup = [New_Browser browser0; New_Agent agent;
                     Element_info status_box msg]
            /\ new_ChatOpenAI env llm = Returns tt
            /\ new_Browser env browser0 = Returns tt
            /\ new_Agent env agent = Returns tt
            /\ element_info env status_box msg = Raises e))
  \/ (exists (llm : ChatOpenAI) (agent : Agent) (msg : str)
             (tail : list event),
        trace run =
          [Enter_run_agent_with_debug query model_choice api_key headless;
           New_ChatOpenAI llm; New_Browser browser0; New_Agent agent;
           Element_info status_box msg; Agent_run agent]
          ++ tail ++ [Browser_close browser0]
        /\ (tail = [] \/ tail = [History_final_result])
        /\ (llm_model llm, llm_temperature llm) = configure_model model_choice
        /\ llm_api_key llm = api_key
        /\ agent_llm agent = llm
        /\ agent_task agent = task query
        /\ agent_browser agent = browser0
        /\ answer run =
             match browser_close env browser0 with
             | Raises e' => Raises e'
             | Returns _ =>
                 match agent_run env agent with
                 | Raises e =>
                     if is_Exception e then Returns (None, [exn_str e])
                     else Raises e
                 | Returns history =>
                     match final_result history with
                     | Returns r => Returns (r, [])
                     | Raises e =>
                         if is_Exception e then Returns (None, [exn_str e])
                         else Raises e
                     end
                 end
             end
        /\ (tail = [History_final_result] <->
            exists history, agent_run env agent = Returns history)
        /\ new_ChatOpenAI env llm = Returns tt
        /\ new_Browser env browser0 = Returns tt
        /\ new_Agent env agent = Returns tt
        /\ element_info env status_box msg = Returns tt).
Proof.
  unfold run_agent_with_debug.
  destruct (configure_model model_choice) as [model temp].
  set (llm := {| llm_base_url := py "https://openrouter.ai/api/v1";
                 llm_model := model; llm_api_key := api_key;
                 llm_default_headers := _; llm_temperature := temp |}).
  set (agent := {| agent_task := task query; agent_llm := llm;
                   agent_browser := browser0; use_vision := false;
                   max_failures := 3; max_actions_per_step := 1 |}).
  cbn zeta.
  set (msg := 128640%N :: py " Launching Browser (Headless: "
                ++ str_of_bool headless ++ py ")...").
  unfold trace, answer, try_finally, try_except, bind, emit, call, ret.
  cbn [fst snd app].
  destruct (new_ChatOpenAI env llm) as [[]|e0] eqn:C1; cbn [fst snd app].
  2: { left. exists e0, llm, agent, msg, []. auto 10. }
  destruct (new_Browser env browser0) as [[]|e0] eqn:C2; cbn [fst snd app].
  2: { left. exists e0, llm, agent, msg, [New_Browser browser0]. auto 10. }
  destruct (new_Agent env agent) as [[]|e0] eqn:C3; cbn [fst snd app].
  2: { left. exists e0, llm, agent, msg, [New_Browser browser0; New_Agent agent].
       repeat split; auto 10. }
  destruct (element_info env status_box msg) as [[]|e0] eqn:C4;
    cbn [fst snd app].
  2: { left. exists e0, llm, agent, msg,
         [New_Browser browser0; New_Agent agent; Element_info status_box msg].
       repeat split; auto 10. }
  right. exists llm, agent, msg.
  exists (match agent_run env agent with
          | Returns _ => [History_final_result]
          | Raises _ => []
          end).
  destruct (agent_run env agent) as [history|e]; cbn [fst snd app].
  - destruct (final_result history) as [r|e]; cbn [fst snd app].
    + destruct (browser_close env browser0); cbn [fst snd app];
        repeat split; eauto.
    + destruct (is_Exception e); cbn [fst snd app];
        destruct (browser_close env browser0); cbn [fst snd app];
        repeat split; eauto.
  - destruct (is_Exception e); cbn [fst snd app];
      destruct (browser_close env browser0); cbn [fst snd app];
      repeat split; auto; try discriminate;
      intros (history & H); discriminate H.
Qed.

(** An invocation that runs the agent has passed the four calls before
    the [try] statement. *)
Lemma run_reached (a : Agent) :
  In (Agent_run a) (trace run) ->
  exists (llm : ChatOpenAI) (msg : str) (tail : list event),
    trace run =
      [Enter_run_agent_with_debug query model_choice api_key headless;
       New_ChatOpenAI llm; New_Browser browser0; New_Agent a;
       Element_info status_box msg; Agent_run a]
      ++ tail ++ [Browser_close browser0]
    /\ (tail = [] \/ tail = [History_final_result])
    /\ agent_browser a = browser0
    /\ answer run =
         match browser_close env browser0 with
         | Raises e' => Raises e'
         | Returns _ =>
             match agent_run env a with
             | Raises e =>
                 if is_Exception e then Returns (None, [exn_str e])
                 else Raises e
             | Returns history =>
                 match final_result history with
                 | Returns r => Returns (r, [])
                 | Raises e =>
                     if is_Exception e then Returns (None, [exn_str e])
                     else Raises e
                 end
             end
         end
    /\ (tail = [History_final_result] <->
        exists history, agent_run env a = Returns history).
Proof.
  intros I.
  destruct run_cases
    as [(e & llm & agent & msg & setup & T & _ & _ & _ & S)
       |(llm & agent & msg & tail & T & Tail & _ & _ & _ & _ & B & A & F & _)].
  - rewrite T in I.
    destruct S as [(-> & _)|[(-> & _)|[(-> & _)|(-> & _)]]]; in_cases I.
  - assert (a = agent) as ->.
    { rewrite T in I.
      destruct Tail; subst tail; in_cases I; injection I as <-; reflexivity. }
    exists llm, msg, tail. auto.
Qed.

(** An invocation that returns a pair has run the agent. *)
Lemma run_returned (p : option str * list str) :
  answer run = Returns p -> exists a : Agent, In (Agent_run a) (trace run).
Proof.
  intros R.
  destruct run_cases
    as [(e & llm & agent & msg & setup & _ & A & _)
       |(llm & agent & msg & tail & T & _)].
  - rewrite A in R. discriminate R.
  - exists agent. rewrite T. simpl. auto 10.
Qed.

(** The client is constructed first, and only once. *)
Lemma run_client_call :
  exists (llm : ChatOpenAI) (rest : list event),
    trace run
    = Enter_run_agent_with_debug query model_choice api_key headless
      :: New_ChatOpenAI llm :: rest
    /\ (forall llm' : ChatOpenAI, ~ In (New_ChatOpenAI llm') rest)
    /\ (llm_model llm, llm_temperature llm) = configure_model model_choice
    /\ llm_api_key llm = api_key.
Proof.
  destruct run_cases
    as [(e & llm & agent & msg & setup & T & _ & Cfg & Key & S)
       |(llm & agent & msg & tail & T & Tail & Cfg & Key & _)].
  - exists llm, setup. repeat split; auto.
    intros llm' H.
    destruct S as [(-> & _)|[(-> & _)|[(-> & _)|(-> & _)]]]; in_cases H.
  - eexists llm, _. split; [exact T|]. repeat split; auto.
    intros llm' H. destruct Tail; subst tail; in_cases H.
Qed.

(** The events of an invocation. *)
Lemma run_events (ev : event) :
  In ev (trace run) ->
  ev = Enter_run_agent_with_debug query model_choice api_key headless
  \/ (exists llm, ev = New_ChatOpenAI llm)
  \/ ev = New_Browser browser0
  \/ (exists a, ev = New_Agent a)
  \/ (exists msg, ev = Element_info status_box msg)
  \/ (exists a, ev = Agent_run a)
  \/ ev = History_final_result
  \/ ev = Browser_close browser0.
Proof.
  destruct run_cases
    as [(e & llm & agent & msg & setup & T & _ & _ & _ & S)
       |(llm & agent & msg & tail & T & Tail & _)];
    rewrite T; intros H.
  - destruct S as [(-> & _)|[(-> & _)|[(-> & _)|(-> & _)]]];
      in_cases H; subst ev; eauto 12.
  - destruct Tail; subst tail; in_cases H; subst ev; eauto 12.
Qed.

End RunFacts.

(** ** [render] and [main]: their traces *)


Section MainFacts.

Variable env : world.

Lemma render_spec (el : element) (r : option str) (errors : list str) :
  answer (render env el (r, errors)) = Returns tt
  /\ trace (render env el (r, errors)) =
       Element_code el (captured_stdout env)
       :: (if truthy_list errors
           then [St_error (128165%N :: py " The Agent crashed!"); St_json errors]
           else [])
       ++ match r with
          | Some (c :: r') =>
              [St_success (py "Agent Finished!");
               St_markdown (py "### Result:\n" ++ c :: r');
               match re_search env url_pattern (c :: r') with
               | Some u => St_image u
               | None => St_warning (py "No image link found in result.")
               end]
          | _ => [St_warning (py "Agent finished but returned no result.")]
          end.
Proof.
  unfold render, trace, answer, bind, emit, call, ret.
  destruct errors as [|e errors]; destruct r as [[|c r']|];
    cbn [truthy_list truthy_result truthy_str fst snd app];
    try (split; reflexivity);
    destruct (re_search env url_pattern (c :: r')); split; reflexivity.
Qed.

Variable ss : session_state.

Local Abbreviation api_key :=
  (match api_key_input ss with Some s => s | None => [] end).
Local Abbreviation model :=
  (nth match model_select ss with Some i => i | None => 0%nat end model_options
       (hd [] model_options)).
Local Abbreviation is_cloud := (str_eqb (platform_system env) (py "Linux")).
Local Abbreviation headless :=
  (match headless_check ss with Some b => b | None => is_cloud end).
Local Abbreviation query :=
  (match meme_query_input ss with
   | Some s => s
   | None => py "Programmers working on friday"
   end).
Local Abbreviation page :=
  [St_set_page_config (py "AI Meme Debugger") [128030%N];
   St_title (128030%N :: py " AI Meme Generator (Fixed)");
   St_header (py "Settings");
   St_text_input (py "OpenRouter Key") [];
   St_selectbox (py "Model") model_options;
   St_checkbox (py "Headless Mode") is_cloud;
   St_text_input (py "Meme Prompt") (py "Programmers working on friday");
   St_button (py "Run Agent")].
Local Abbreviation log_expander := (Expander (128221%N :: py " Live Logs") true).
Local Abbreviation run :=
  (run_agent_with_debug env query model api_key headless Placeholder).

Lemma main_not_clicked :
  run_button ss = false -> main env ss = (page, Returns tt).
Proof.
  intros C. unfold main, st_text_input, st_selectbox, st_checkbox, st_button,
    bind, emit, call, ret.
  cbn [fst snd app]. rewrite C. reflexivity.
Qed.

Lemma main_no_key :
  run_button ss = true -> api_key = [] ->
  main env ss =
    (page ++ [St_error (py "Need API Key"); St_stop], Raises StopException).
Proof.
  intros C K. unfold main, st_text_input, st_selectbox, st_checkbox, st_button,
    st_stop, bind, emit, call, ret.
  cbn [fst snd app]. rewrite C, K. reflexivity.
Qed.

Lemma main_clicked :
  run_button ss = true -> api_key <> [] ->
  trace (main env ss) =
    page
    ++ [St_empty; St_expander (128221%N :: py " Live Logs") true;
        St_spinner (py "Agent is working...")]
    ++ trace run
    ++ match answer run with
       | Returns returned => trace (render env log_expander returned)
       | Raises e =>
           if is_Exception e
           then [St_error (py "Critical Error: " ++ exn_str e)]
           else []
       end.
Proof.
  intros C K. unfold main, st_text_input, st_selectbox, st_checkbox, st_button,
    st_stop, st_empty, st_expander, try_except, trace, answer.
  unfold bind at 1 2 3 4 5 6 7 8. unfold emit, call, ret.
  cbn [fst snd app]. rewrite C.
  rewrite (proj2 (truthy_str_true _) K).
  cbn [negb]. unfold bind. cbn [fst snd app].
  destruct run as [t [[r errors]|e]]; cbn [fst snd app].
  - destruct (render_spec log_expander r errors) as [A T].
    unfold answer in A. unfold trace in T.
    destruct (render env log_expander (r, errors)) as [t' a'].
    cbn [fst snd] in *. subst a'. reflexivity.
  - destruct (is_Exception e); cbn [fst snd app]; rewrite ?app_nil_r; reflexivity.
Qed.


(** What the handler passes to [run_agent_with_debug] when it calls
    it: the button was clicked, the key is not empty, and the arguments
    are the values of the four widgets. *)
Lemma main_enter (q m k : str) (h : bool) :
  In (Enter_run_agent_with_debug q m k h) (trace (main env ss)) ->
  run_button ss = true /\ api_key <> []
  /\ q = query /\ m = model /\ k = api_key /\ h = headless.
Proof.
  intros H. destruct (run_button ss) eqn:C.
  2: { rewrite (main_not_clicked C) in H. in_cases H. }
  destruct (truthy_str api_key) eqn:K.
  2: { assert (K' : api_key = []) by (destruct api_key; [reflexivity|discriminate]).
       rewrite (main_no_key C K') in H. in_cases H. }
  apply truthy_str_true in K.
  rewrite (main_clicked C K) in H. rewrite !in_app_iff in H.
  destruct H as [H|[H|[H|H]]].
  - in_cases H.
  - in_cases H.
  - apply run_events in H.
    destruct H as [H|[(?&H)|[H|[(?&H)|[(?&H)|[(?&H)|[H|H]]]]]]];
      try discriminate H.
    injection H as -> -> -> ->. repeat split; auto.
  - destruct (answer run) as [[r errors]|e].
    + rewrite (proj2 (render_spec _ _ _)) in H.
      destruct errors, r as [[|]|]; try destruct (re_search _ _ _); in_cases H.
    + destruct (is_Exception e); in_cases H.
Qed.

(** The trace of a handler run in which the call returned a pair. *)
Lemma main_returned (r : option str) (errors : list str) :
  run_button ss = true -> api_key <> [] ->
  answer run = Returns (r, errors) ->
  trace (main env ss) =
    page
    ++ [St_empty; St_expander (128221%N :: py " Live Logs") true;
        St_spinner (py "Agent is working...")]
    ++ trace run
    ++ trace (render env log_expander (r, errors)).
Proof.
  intros C K A. rewrite (main_clicked C K), A. reflexivity.
Qed.

(** Every handler run starts by drawing the page; no widget is drawn
    after that. *)
Lemma main_widgets :
  exists rest : list event,
    trace (main env ss) = page ++ rest
    /\ forall ev : event,
         In ev rest ->
         match ev with
         | St_selectbox _ _ | St_checkbox _ _ => False
         | _ => True
         end.
Proof.
  destruct (run_button ss) eqn:C.
  2: { exists []. rewrite (main_not_clicked C), app_nil_r.
       split; [reflexivity|]. intros ev []. }
  destruct (truthy_str api_key) eqn:K.
  2: { assert (K' : api_key = []) by (destruct api_key; [reflexivity|discriminate]).
       eexists. rewrite (main_no_key C K'). split; [reflexivity|].
       intros ev H. in_cases H; subst ev; exact I. }
  apply truthy_str_true in K.
  eexists. rewrite (main_clicked C K). split; [reflexivity|].
  intros ev H. rewrite !in_app_iff in H. destruct H as [H|[H|H]].
  - in_cases H; subst ev; exact I.
  - apply run_events in H.
    destruct H as [H|[(?&H)|[H|[(?&H)|[(?&H)|[(?&H)|[H|H]]]]]]];
      subst ev; exact I.
  - destruct (answer run) as [[r errors]|e].
    + rewrite (proj2 (render_spec _ _ _)) in H.
      destruct errors, r as [[|]|]; try destruct (re_search _ _ _);
        in_cases H; subst ev; exact I.
    + destruct (is_Exception e); in_cases H; subst ev; exact I.
Qed.

End MainFacts.

(** * The claims *)

Lemma configure_model_cases (model_choice : str) :
  (model_choice = py "Claude" ->
   configure_model model_choice
   = (py "meta-llama/llama-3.3-70b-instruct:free", 0.7%float))
  /\ (model_choice = py "Deepseek" ->
      configure_model model_choice
      = (py "nex-agi/deepseek-v3.1-nex-n1:free", 0.3%float))
  /\ (model_choice <> py "Claude" -> model_choice <> py "Deepseek" ->
      configure_model model_choice = (py "openai/gpt-oss-120b:free", 0.1%float)).
Proof.
  unfold configure_model. repeat split.
  - intros ->. reflexivity.
  - intros ->. reflexivity.
  - intros C D. apply str_eqb_neq in C, D. rewrite C, D. reflexivity.
Qed.


(** C1.  For every [model_choice] string, [run_agent_with_debug]
    constructs its LLM client exactly once, with a model identifier and
    a temperature read off a fixed table: ["Claude"] gives
    ["meta-llama/llama-3.3-70b-instruct:free"] and 0.7, ["Deepseek"]
    gives ["nex-agi/deepseek-v3.1-nex-n1:free"] and 0.3, every other
    string gives ["openai/gpt-oss-120b:free"] and 0.1.  No string makes
    the selection fail. *)
Theorem model_selection_total
    (env : world) (query model_choice api_key : str) (headless : bool)
    (status_box : element) :
  exists llm : ChatOpenAI,
    In (New_ChatOpenAI llm)
       (trace (run_agent_with_debug env query model_choice api_key headless
                 status_box))
    /\ (forall llm',
          In (New_ChatOpenAI llm')
             (trace (run_agent_with_debug env query model_choice api_key
                       headless status_box)) ->
          llm' = llm)
    /\ (llm_model llm, llm_temperature llm) = configure_model model_choice
    /\ (model_choice = py "Claude" ->
        llm_model llm = py "meta-llama/llama-3.3-70b-instruct:free"
        /\ llm_temperature llm = 0.7%float)
    /\ (model_choice = py "Deepseek" ->
        llm_model llm = py "nex-agi/deepseek-v3.1-nex-n1:free"
        /\ llm_temperature llm = 0.3%float)
    /\ (model_choice <> py "Claude" -> model_choice <> py "Deepseek" ->
        llm_model llm = py "openai/gpt-oss-120b:free"
        /\ llm_temperature llm = 0.1%float).
Proof.
  destruct (run_client_call env query model_choice api_key headless status_box)
    as (llm & rest & T & U & Cfg & _).
  exists llm. rewrite T.
  destruct (configure_model_cases model_choice) as (C & D & O).
  split; [simpl; auto|]. split.
  - intros llm' H. destruct H as [H|[H|H]]; [discriminate H| |].
    + injection H as <-. reflexivity.
    + destruct (U llm' H).
  - split; [exact Cfg|]. split; [|split].
    + intros E. rewrite (C E) in Cfg. injection Cfg as E1 E2. auto.
    + intros E. rewrite (D E) in Cfg. injection Cfg as E1 E2. auto.
    + intros N1 N2. rewrite (O N1 N2) in Cfg. injection Cfg as E1 E2. auto.
Qed.

Lemma model_selection_total_witness :
  exists llm : ChatOpenAI,
    In (New_ChatOpenAI llm)
       (trace (run_agent_with_debug world_meme (py "cats") (py "Mistral")
                 (py "sk-or-v1-0000") true Placeholder))
    /\ llm_model llm = py "openai/gpt-oss-120b:free"
    /\ llm_temperature llm = 0.1%float.
Proof.
  destruct (model_selection_total world_meme (py "cats") (py "Mistral")
              (py "sk-or-v1-0000") true Placeholder)
    as (llm & I & _ & _ & _ & _ & O).
  exists llm. split; [exact I|].
  apply O; vm_compute; discriminate.
Defined.




(** C5.  In the pair that [run_agent_with_debug] returns, a non-empty
    error list comes with the result [None]: a result and a crash error
    are never returned together. *)
Theorem errors_imply_no_result
    (env : world) (query model_choice api_key : str) (headless : bool)
    (status_box : element) (r : option str) (errors : list str) :
  answer (run_agent_with_debug env query model_choice api_key headless
            status_box)
  = Returns (r, errors) ->
  errors <> [] -> r = None.
Proof.
  intros R.
  destruct (run_returned env query model_choice api_key headless status_box
              _ R) as (agent & I).
  destruct (run_reached env query model_choice api_key headless status_box
              agent I)
    as (llm & msg & tail & _ & _ & _ & A & _).
  revert R. rewrite A. clear A.
  destruct (browser_close env _); [|discriminate].
  destruct (agent_run env agent) as [history|e].
  - destruct (final_result history) as [r0|e].
    + intros E N. injection E as <- <-. congruence.
    + destruct (is_Exception e); [|discriminate].
      intros E _. injection E as <- _. reflexivity.
  - destruct (is_Exception e); [|discriminate].
    intros E _. injection E as <- _. reflexivity.
Qed.

Lemma errors_imply_no_result_witness :
  exists (r : option str) (errors : list str),
    answer (run_agent_with_debug world_timeout (py "cats") (py "Deepseek")
              (py "sk-or-v1-0000") false Placeholder)
    = Returns (r, errors)
    /\ errors = [py "Timeout 30000ms exceeded."] /\ r = None.
Proof.
  eexists. eexists. split; [reflexivity|]. split; [reflexivity|].
  apply (errors_imply_no_result world_timeout (py "cats") (py "Deepseek")
           (py "sk-or-v1-0000") false Placeholder None
           [py "Timeout 30000ms exceeded."]).
  - reflexivity.
  - discriminate.
Defined.



(** C4.  The task description handed to the agent substitutes the
    query in the opening line only: the line of step 2 is not part of
    the formatted literal and keeps the text [{query}] as it is
    written.  For the query [cats] the agent receives the text below,
    which is not the template with the query at both places. *)
Theorem task_step2_keeps_placeholder :
  exists a : Agent,
    In (New_Agent a)
       (trace (run_agent_with_debug world_meme (py "cats") (py "OpenAI")
                 (py "sk-or-v1-0000") true Placeholder))
    /\ agent_task a = task (py "cats")
    /\ task (py "cats")
       = py "Generate a meme about: 'cats'.\nSTRICT STEPS:\n"
         ++ py "1. GO TO 'https://imgflip.com/memetemplates'.\n"
         ++ py "2. TYPE a simple keyword related to '{query}' into the search box.\n"
         ++ py "3. CLICK on the first matching template image.\n"
         ++ py "4. WAIT for the 'Caption this Meme' button or text boxes to load.\n"
         ++ py "5. CLICK inside the Top Text box and TYPE a setup.\n"
         ++ py "6. CLICK inside the Bottom Text box and TYPE a punchline.\n"
         ++ py "7. CLICK 'Generate Meme'.\n"
         ++ py "8. EXTRACT and RETURN the image URL starting with 'https://i.imgflip.com'.\n"
    /\ task (py "cats") <> task_as_specified (py "cats").
Proof.
  eexists. split; [cbv; do 3 right; left; reflexivity|].
  split; [reflexivity|]. split; [reflexivity|].
  vm_compute. discriminate.
Qed.

Section HandlerClaims.

Variable env : world.
Variable ss : session_state.

(** The display calls of a handler run in which the call returned are
    those of [render]. *)
Lemma main_displays (q m k : str) (h : bool) (r : option str)
    (errors : list str) (ev : event) :
  In (Enter_run_agent_with_debug q m k h) (trace (main env ss)) ->
  answer (run_agent_with_debug env q m k h Placeholder) = Returns (r, errors) ->
  match ev with
  | St_error _ | St_json _ | St_success _ | St_markdown _ | St_image _
  | St_warning _ => True
  | _ => False
  end ->
  (In ev (trace (main env ss)) <->
   In ev (trace (render env (Expander (128221%N :: py " Live Logs") true)
                   (r, errors)))).
Proof.
  intros I A D. apply main_enter in I.
  destruct I as (C & K & -> & -> & -> & ->).
  rewrite (main_returned env ss r errors C K A). rewrite !in_app_iff.
  split; [|tauto].
  intros [H|[H|[H|H]]]; [| | |exact H]; exfalso.
  - in_cases H; subst ev; exact D.
  - in_cases H; subst ev; exact D.
  - apply run_events in H.
    destruct H as [H|[(?&H)|[H|[(?&H)|[(?&H)|[(?&H)|[H|H]]]]]]];
      subst ev; exact D.
Qed.

Lemma warnings_differ :
  py "Agent finished but returned no result."
  <> py "No image link found in result.".
Proof. vm_compute. discriminate. Qed.

(** C6, as the code has it.  Once the agent call has returned the pair
    [(r, errors)] to the handler, the crash error and the error list
    are displayed exactly when [errors] is not empty; the success
    message and the result text are displayed exactly when [r] is a
    string that is not empty; and the warning that the agent returned
    no result is displayed exactly when [r] is [None] or the empty
    string. *)
Theorem rendering_case_split
    (q m k : str) (h : bool) (r : option str) (errors : list str) :
  In (Enter_run_agent_with_debug q m k h) (trace (main env ss)) ->
  answer (run_agent_with_debug env q m k h Placeholder) = Returns (r, errors) ->
  (forall body : str,
     In (St_error body) (trace (main env ss)) <->
     body = 128165%N :: py " The Agent crashed!" /\ errors <> [])
  /\ (forall body : list str,
        In (St_json body) (trace (main env ss)) <->
        body = errors /\ errors <> [])
  /\ (forall body : str,
        In (St_success body) (trace (main env ss)) <->
        body = py "Agent Finished!" /\ exists s, r = Some s /\ s <> [])
  /\ (forall body : str,
        In (St_markdown body) (trace (main env ss)) <->
        exists s, r = Some s /\ s <> [] /\ body = py "### Result:\n" ++ s)
  /\ (In (St_warning (py "Agent finished but returned no result."))
         (trace (main env ss)) <->
      r = None \/ r = Some []).
Proof.
  intros E A.
  assert (R : forall ev : event,
             match ev with
             | St_error _ | St_json _ | St_success _ | St_markdown _
             | St_image _ | St_warning _ => True
             | _ => False
             end ->
             (In ev (trace (main env ss)) <->
              In ev (trace (render env
                              (Expander (128221%N :: py " Live Logs") true)
                              (r, errors))))).
  { intros ev D. now apply (main_displays q m k h). }
  rewrite (proj2 (render_spec env _ r errors)) in R.
  split; [|split; [|split; [|split]]]; try intros body;
    [ rewrite (R (St_error body) Logic.I)
    | rewrite (R (St_json body) Logic.I)
    | rewrite (R (St_success body) Logic.I)
    | rewrite (R (St_markdown body) Logic.I)
    | rewrite (R (St_warning _) Logic.I) ];
    clear R E A;
    destruct errors as [|e errors'], r as [[|c r']|];
    try destruct (re_search env url_pattern (c :: r'));
    cbn [truthy_list app]; (split; [intros H; in_cases H|]).
  all: try (injection H as <-).
  all: try (split; [reflexivity|]).
  all: try discriminate.
  all: try (eexists; split; [reflexivity|]; split; [discriminate|reflexivity]).
  all: try (eexists; split; [reflexivity|discriminate]).
  all: try (right; reflexivity).
  all: try (left; reflexivity).
  all: try (injection H as H; now destruct warnings_differ).
  all: intros H;
    repeat match goal with
      | H : _ /\ _ |- _ => destruct H
      | H : _ \/ _ |- _ => destruct H
      | H : exists _, _ |- _ => destruct H
      | H : Some _ = Some _ |- _ => injection H as <-
      end;
    subst; try congruence; try discriminate; simpl; auto 10.
Qed.

(** C3, as the code has it.  For every result string that is not empty
    and that the handler receives back from the agent call, an image is
    displayed exactly when the result contains a substring of the form
    [https://i.imgflip.com/], one or more word characters, [.jpg]; the
    image displayed is the leftmost such substring; and the warning
    that no image link was found is displayed exactly when there is no
    such substring. *)
Theorem image_shown_for_first_match
    (q m k : str) (h : bool) (r : str) (errors : list str) :
  In (Enter_run_agent_with_debug q m k h) (trace (main env ss)) ->
  answer (run_agent_with_debug env q m k h Placeholder)
  = Returns (Some r, errors) ->
  r <> [] ->
  ((exists u : str, In (St_image u) (trace (main env ss))) <->
   contains_image_url env r)
  /\ (forall u : str,
        In (St_image u) (trace (main env ss)) <-> first_image_url env r u)
  /\ (In (St_warning (py "No image link found in result."))
         (trace (main env ss)) <->
      ~ contains_image_url env r).
Proof.
  intros E A N.
  assert (R : forall ev : event,
             match ev with
             | St_error _ | St_json _ | St_success _ | St_markdown _
             | St_image _ | St_warning _ => True
             | _ => False
             end ->
             (In ev (trace (main env ss)) <->
              In ev (trace (render env
                              (Expander (128221%N :: py " Live Logs") true)
                              (Some r, errors))))).
  { intros ev D. now apply (main_displays q m k h). }
  rewrite (proj2 (render_spec env _ (Some r) errors)) in R.
  destruct r as [|c r']; [congruence|]. clear E A N.
  assert (Img : forall u : str,
             In (St_image u) (trace (main env ss)) <->
             re_search env url_pattern (c :: r') = Some u).
  { intros u. rewrite (R (St_image u) Logic.I).
    destruct errors, (re_search env url_pattern (c :: r'));
      cbn [truthy_list app]; (split; [intros H; in_cases H|intros H]);
      try discriminate; injection H as ->; simpl; auto 10. }
  assert (Warn : In (St_warning (py "No image link found in result."))
                   (trace (main env ss)) <->
                 re_search env url_pattern (c :: r') = None).
  { rewrite (R (St_warning _) Logic.I).
    destruct errors, (re_search env url_pattern (c :: r'));
      cbn [truthy_list app]; (split; [intros H; in_cases H|intros H]);
      try discriminate; try reflexivity; simpl; auto 10. }
  split; [|split].
  - split.
    + intros (u & H). apply Img, re_search_url in H.
      destruct H as (i & U & O & _). exists u, i. auto.
    + intros H. destruct (re_search env url_pattern (c :: r')) as [u|] eqn:S.
      * exists u. now apply Img.
      * apply re_search_url_none in S. contradiction.
  - intros u. rewrite Img. apply re_search_url.
  - rewrite Warn. apply re_search_url_none.
Qed.

End HandlerClaims.

Lemma model_options_nth (i : nat) :
  In (nth i model_options (hd [] model_options))
     [py "Deepseek"; py "Claude"; py "OpenAI"].
Proof.
  destruct i as [|[|[|[|i]]]];
    [left|right; left|right; right; left|left|left]; reflexivity.
Qed.

(** C7.  The model dropdown is drawn with exactly the options
    ["Deepseek"], ["Claude"] and ["OpenAI"], and the key the handler
    passes to [run_agent_with_debug] is one of the three.
    [run_agent_with_debug] does not validate the key: with any other
    string it constructs the client of the default branch and answers
    as it does for ["OpenAI"]. *)
Theorem model_key_from_dropdown :
  (forall (env : world) (ss : session_state),
     In (St_selectbox (py "Model") [py "Deepseek"; py "Claude"; py "OpenAI"])
        (trace (main env ss))
     /\ (forall (label : str) (options : list str),
           In (St_selectbox label options) (trace (main env ss)) ->
           options = [py "Deepseek"; py "Claude"; py "OpenAI"])
     /\ (forall (q m k : str) (h : bool),
           In (Enter_run_agent_with_debug q m k h) (trace (main env ss)) ->
           m = py "Deepseek" \/ m = py "Claude" \/ m = py "OpenAI"))
  /\ (forall (env : world) (q m k : str) (h : bool) (sb : element),
        m <> py "Deepseek" -> m <> py "Claude" -> m <> py "OpenAI" ->
        (exists llm : ChatOpenAI,
           In (New_ChatOpenAI llm)
              (trace (run_agent_with_debug env q m k h sb))
           /\ llm_model llm = py "openai/gpt-oss-120b:free"
           /\ llm_temperature llm = 0.1%float)
        /\ answer (run_agent_with_debug env q m k h sb)
           = answer (run_agent_with_debug env q (py "OpenAI") k h sb)).
Proof.
  split.
  - intros env ss. destruct (main_widgets env ss) as (rest & T & W).
    split; [|split].
    + rewrite T. simpl. auto 10.
    + intros label options H. rewrite T in H. apply in_app_or in H.
      destruct H as [H|H].
      * in_cases H. injection H as _ <-. reflexivity.
      * destruct (W _ H).
    + intros q m k h H. apply main_enter in H.
      destruct H as (_ & _ & _ & -> & _).
      pose proof (model_options_nth
                    match model_select ss with Some i => i | None => 0%nat end)
        as X.
      in_cases X; auto.
  - intros env q m k h sb D C O. split.
    + destruct (run_client_call env q m k h sb)
        as (llm & rest & T & _ & Cfg & _).
      exists llm. rewrite T. split; [simpl; auto|].
      rewrite (proj2 (proj2 (configure_model_cases m)) C D) in Cfg.
      injection Cfg as E1 E2. auto.
    + unfold run_agent_with_debug.
      rewrite (proj2 (proj2 (configure_model_cases m)) C D).
      reflexivity.
Qed.

(** C8.  When the button is clicked while the API key is the empty
    string, the handler displays the error [Need API Key] and stops:
    [run_agent_with_debug] is not entered and no agent is run.
    Whenever [run_agent_with_debug] is entered from the handler, the
    key it receives is not empty. *)
Theorem empty_key_stops_before_agent (env : world) (ss : session_state) :
  (run_button ss = true ->
   api_key_input ss = None \/ api_key_input ss = Some [] ->
   (exists pre : list event,
      trace (main env ss) = pre ++ [St_error (py "Need API Key"); St_stop])
   /\ answer (main env ss) = Raises StopException
   /\ (forall (q m k : str) (h : bool),
         ~ In (Enter_run_agent_with_debug q m k h) (trace (main env ss)))
   /\ (forall a : Agent, ~ In (Agent_run a) (trace (main env ss))))
  /\ (forall (q m k : str) (h : bool),
        In (Enter_run_agent_with_debug q m k h) (trace (main env ss)) ->
        k <> []
        /\ forall llm : ChatOpenAI,
             In (New_ChatOpenAI llm) (trace (main env ss)) ->
             llm_api_key llm = k).
Proof.
  split.
  - intros C K.
    assert (K' : match api_key_input ss with Some s => s | None => [] end = [])
      by (destruct K as [-> | ->]; reflexivity).
    rewrite (main_no_key env ss C K'). cbn [trace answer fst snd].
    split; [eexists; reflexivity|]. split; [reflexivity|].
    split; [intros q m k h H|intros a H]; in_cases H.
  - intros q m k h H. pose proof (main_enter env ss q m k h H) as E.
    destruct E as (C & K & -> & -> & -> & ->).
    split; [exact K|].
    intros llm L. rewrite (main_clicked env ss C K) in L.
    rewrite !in_app_iff in L. destruct L as [L|[L|[L|L]]].
    + in_cases L.
    + in_cases L.
    + destruct (run_client_call env
                  match meme_query_input ss with
                  | Some s => s
                  | None => py "Programmers working on friday"
                  end
                  (nth match model_select ss with Some i => i | None => 0%nat end
                       model_options (hd [] model_options))
                  match api_key_input ss with Some s => s | None => [] end
                  match headless_check ss with
                  | Some b => b
                  | None => str_eqb (platform_system env) (py "Linux")
                  end
                  Placeholder)
        as (llm0 & rest & T & U & _ & Key).
      rewrite T in L. destruct L as [L|[L|L]]; [discriminate L| |].
      * injection L as <-. exact Key.
      * destruct (U llm L).
    + destruct (answer (run_agent_with_debug env _ _ _ _ Placeholder))
        as [[r errors]|e].
      * rewrite (proj2 (render_spec _ _ _ _)) in L.
        destruct errors, r as [[|]|]; try destruct (re_search _ _ _);
          in_cases L.
      * destruct (is_Exception e); in_cases L.
Qed.

(** C10.  The [Headless Mode] checkbox is drawn with the default [True]
    exactly when [platform.system()] is ["Linux"].  When the button is
    clicked with a key that is not empty, [run_agent_with_debug] is
    called with the value the checkbox holds, which is the default when
    the user has not touched it; every browser constructed has a
    configuration whose [headless] is that value; and a browser is
    constructed with it as soon as the client constructor returns. *)
Theorem headless_default_and_passthrough (env : world) (ss : session_state) :
  exists value : bool,
    In (St_checkbox (py "Headless Mode") value) (trace (main env ss))
    /\ (forall (label : str) (value' : bool),
          In (St_checkbox label value') (trace (main env ss)) ->
          value' = value)
    /\ (value = true <-> platform_system env = py "Linux")
    /\ let held :=
         match headless_check ss with Some b => b | None => value end in
       run_button ss = true ->
       match api_key_input ss with Some s => s | None => [] end <> [] ->
       (exists q m k : str,
          In (Enter_run_agent_with_debug q m k held) (trace (main env ss)))
       /\ (forall (q m k : str) (h : bool),
             In (Enter_run_agent_with_debug q m k h) (trace (main env ss)) ->
             h = held)
       /\ (forall b : Browser,
             In (New_Browser b) (trace (main env ss)) ->
             headless_of (config b) = held)
       /\ ((forall llm : ChatOpenAI,
              In (New_ChatOpenAI llm) (trace (main env ss)) ->
              new_ChatOpenAI env llm = Returns tt) ->
           In (New_Browser {| config := {| headless_of := held |} |})
              (trace (main env ss))).
Proof.
  exists (str_eqb (platform_system env) (py "Linux")).
  destruct (main_widgets env ss) as (rest & T & W).
  split; [rewrite T; simpl; auto 10|].
  split.
  { intros label value' H. rewrite T in H. apply in_app_or in H.
    destruct H as [H|H].
    - in_cases H. injection H as _ <-. reflexivity.
    - destruct (W _ H). }
  split; [apply str_eqb_eq|].
  cbn zeta. intros C K. clear rest T W.
  split; [|split; [|split]].
  - rewrite (main_clicked env ss C K). do 3 eexists.
    rewrite !in_app_iff. right. right. left.
    destruct (run_client_call env
                match meme_query_input ss with
                | Some s => s
                | None => py "Programmers working on friday"
                end
                (nth match model_select ss with Some i => i | None => 0%nat end
                     model_options (hd [] model_options))
                match api_key_input ss with Some s => s | None => [] end
                match headless_check ss with
                | Some b => b
                | None => str_eqb (platform_system env) (py "Linux")
                end
                Placeholder)
      as (llm0 & rest & T & _).
    rewrite T. left. reflexivity.
  - intros q m k h H. apply main_enter in H.
    destruct H as (_ & _ & _ & _ & _ & ->). reflexivity.
  - intros b L. rewrite (main_clicked env ss C K) in L.
    rewrite !in_app_iff in L. destruct L as [L|[L|[L|L]]].
    + in_cases L.
    + in_cases L.
    + apply run_events in L.
      destruct L as [L|[(?&L)|[L|[(?&L)|[(?&L)|[(?&L)|[L|L]]]]]]];
        try discriminate L.
      injection L as ->. reflexivity.
    + destruct (answer (run_agent_with_debug env _ _ _ _ Placeholder))
        as [[r errors]|e].
      * rewrite (proj2 (render_spec _ _ _ _)) in L.
        destruct errors, r as [[|]|]; try destruct (re_search _ _ _);
          in_cases L.
      * destruct (is_Exception e); in_cases L.
  - intros Client. rewrite (main_clicked env ss C K) in Client |- *.
    rewrite !in_app_iff. right. right. left.
    destruct (run_cases env
                match meme_query_input ss with
                | Some s => s
                | None => py "Programmers working on friday"
                end
                (nth match model_select ss with Some i => i | None => 0%nat end
                     model_options (hd [] model_options))
                match api_key_input ss with Some s => s | None => [] end
                match headless_check ss with
                | Some b => b
                | None => str_eqb (platform_system env) (py "Linux")
                end
                Placeholder)
      as [(e & llm & agent & msg & setup & T & _ & _ & _ & S)
         |(llm & agent & msg & tail & T & _)].
    + destruct S as [(-> & X)|[(-> & _)|[(-> & _)|(-> & _)]]];
        try (rewrite T; simpl; auto 10).
      assert (Y : new_ChatOpenAI env llm = Returns tt).
      { apply Client. rewrite !in_app_iff. right. right. left.
        rewrite T. simpl. auto. }
      rewrite X in Y. discriminate Y.
    + rewrite T. simpl. auto 10.
Qed.

(** ** The claims at sample runs *)

(** The call the handler makes in the session [session_clicked] on a
    Linux host. *)
Lemma session_clicked_enters (run : outcome AgentHistoryList) (close : outcome unit) :
  In (Enter_run_agent_with_debug (py "Programmers working on friday")
        (py "Claude") (py "sk-or-v1-0000") true)
     (trace (main (world_of (py "Linux") run close) session_clicked)).
Proof.
  rewrite main_clicked by (try reflexivity; discriminate).
  rewrite !in_app_iff. right. right. left.
  left. reflexivity.
Qed.

Lemma image_shown_for_first_match_witness :
  first_image_url world_meme
    (py "Here it is: https://i.imgflip.com/9x_k2a.jpg")
    (py "https://i.imgflip.com/9x_k2a.jpg").
Proof.
  apply (proj1 (proj2 (image_shown_for_first_match world_meme session_clicked
                         (py "Programmers working on friday") (py "Claude")
                         (py "sk-or-v1-0000") true
                         (py "Here it is: https://i.imgflip.com/9x_k2a.jpg") []
                         (session_clicked_enters _ _) eq_refl
                         ltac:(vm_compute; discriminate)))).
  in_tac.
Defined.

(** C3, as stated, fails at the empty string: it is a result that is
    not [None] and contains no match, and the handler does not display
    the warning that no image link was found (it displays the warning
    that the agent returned no result). *)
Lemma empty_result_no_image_warning :
  ~ (forall (env : world) (ss : session_state) (q m k : str) (h : bool)
            (r : str) (errors : list str),
       In (Enter_run_agent_with_debug q m k h) (trace (main env ss)) ->
       answer (run_agent_with_debug env q m k h Placeholder)
       = Returns (Some r, errors) ->
       ~ contains_image_url env r ->
       In (St_warning (py "No image link found in result."))
          (trace (main env ss))).
Proof.
  intros H.
  specialize (H world_empty_result session_clicked
                (py "Programmers working on friday") (py "Claude")
                (py "sk-or-v1-0000") true [] []
                (session_clicked_enters _ _) eq_refl).
  assert (X : ~ contains_image_url world_empty_result [])
    by (apply re_search_url_none; reflexivity).
  apply H in X. vm_compute in X. in_cases X.
Qed.

Lemma rendering_case_split_witness :
  In (St_success (py "Agent Finished!")) (trace (main world_meme session_clicked))
  /\ ~ In (St_warning (py "Agent finished but returned no result."))
         (trace (main world_meme session_clicked)).
Proof.
  destruct (rendering_case_split world_meme session_clicked
              (py "Programmers working on friday") (py "Claude")
              (py "sk-or-v1-0000") true
              (Some (py "Here it is: https://i.imgflip.com/9x_k2a.jpg")) []
              (session_clicked_enters _ _) eq_refl)
    as (_ & _ & S & _ & W).
  split.
  - apply S. split; [reflexivity|]. eexists. split; [reflexivity|].
    vm_compute. discriminate.
  - intros X. apply W in X. destruct X as [X|X]; vm_compute in X; discriminate X.
Defined.

(** C6, as stated, fails at the empty string: the result is not [None],
    yet the success message is not displayed and the warning that the
    agent returned no result is. *)
Lemma empty_result_not_rendered :
  ~ (forall (env : world) (ss : session_state) (q m k : str) (h : bool)
            (r : option str) (errors : list str),
       In (Enter_run_agent_with_debug q m k h) (trace (main env ss)) ->
       answer (run_agent_with_debug env q m k h Placeholder)
       = Returns (r, errors) ->
       (In (St_success (py "Agent Finished!")) (trace (main env ss)) <->
        r <> None)
       /\ (In (St_warning (py "Agent finished but returned no result."))
              (trace (main env ss)) <->
           r = None)).
Proof.
  intros H.
  destruct (H world_empty_result session_clicked
              (py "Programmers working on friday") (py "Claude")
              (py "sk-or-v1-0000") true (Some []) []
              (session_clicked_enters _ _) eq_refl) as [[_ S] _].
  assert (X : In (St_success (py "Agent Finished!"))
                (trace (main world_empty_result session_clicked)))
    by (apply S; discriminate).
  vm_compute in X. in_cases X.
Qed.

Lemma model_key_from_dropdown_witness :
  (py "Claude" = py "Deepseek" \/ py "Claude" = py "Claude"
   \/ py "Claude" = py "OpenAI")
  /\ answer (run_agent_with_debug world_meme (py "cats") (py "Mistral")
               (py "sk-or-v1-0000") true Placeholder)
     = answer (run_agent_with_debug world_meme (py "cats") (py "OpenAI")
                 (py "sk-or-v1-0000") true Placeholder).
Proof.
  split.
  - apply (proj2 (proj2 (proj1 model_key_from_dropdown world_meme
                           session_clicked))
             (py "Programmers working on friday") (py "Claude")
             (py "sk-or-v1-0000") true (session_clicked_enters _ _)).
  - apply (proj2 model_key_from_dropdown); vm_compute; discriminate.
Defined.

Lemma empty_key_stops_before_agent_witness :
  answer (main world_meme session_no_key) = Raises StopException
  /\ py "sk-or-v1-0000" <> [].
Proof.
  split.
  - apply (proj1 (empty_key_stops_before_agent world_meme session_no_key));
      [reflexivity | left; reflexivity].
  - apply (proj2 (empty_key_stops_before_agent world_meme session_clicked)
             (py "Programmers working on friday") (py "Claude")
             (py "sk-or-v1-0000") true (session_clicked_enters _ _)).
Defined.

Lemma headless_default_and_passthrough_witness :
  In (New_Browser {| config := {| headless_of := false |} |})
     (trace (main world_meme session_unchecked))
  /\ In (New_Browser {| config := {| headless_of := true |} |})
        (trace (main world_meme session_clicked)).
Proof.
  split.
  - destruct (headless_default_and_passthrough world_meme session_unchecked)
      as (value & _ & _ & _ & P).
    apply (P eq_refl); [discriminate|]. intros llm _. reflexivity.
  - destruct (headless_default_and_passthrough world_meme session_clicked)
      as (value & _ & _ & V & P).
    assert (E : value = true) by (apply V; reflexivity). subst value.
    apply (P eq_refl); [discriminate|]. intros llm _. reflexivity.
Defined.

(** * Further properties of the script *)

(** ** [run_agent_with_debug] *)

Section RunMore.

Variable env : world.
Variables query model_choice api_key : str.
Variable headless : bool.
Variable status_box : element.

Local Abbreviation run :=
  (run_agent_with_debug env query model_choice api_key headless status_box).
Local Abbreviation browser0 := {| config := {| headless_of := headless |} |}.

(** The client that an invocation constructs. *)
Lemma run_client (llm : ChatOpenAI) :
  In (New_ChatOpenAI llm) (trace run) ->
  llm =
    {| llm_base_url := py "https://openrouter.ai/api/v1";
       llm_model := fst (configure_model model_choice);
       llm_api_key := api_key;
       llm_default_headers :=
         [(py "HTTP-Referer", py "http://localhost:8501");
          (py "X-Title", py "MemeGen Debug")];
       llm_temperature := snd (configure_model model_choice) |}.
Proof.
  destruct (run_client_call env query model_choice api_key headless status_box)
    as (llm0 & rest & T & U & _).
  intros H. assert (E : llm = llm0).
  { rewrite T in H. destruct H as [H|[H|H]]; [discriminate H| |].
    - injection H as <-. reflexivity.
    - destruct (U llm H). }
  subst llm0. clear H U. revert T.
  unfold run_agent_with_debug.
  destruct (configure_model model_choice) as [model temp].
  unfold trace, bind, emit, call, ret. cbn [fst snd app].
  destruct (new_ChatOpenAI env _); cbn [fst snd app];
    intros T; injection T as T; rewrite <- T; reflexivity.
Qed.


(** X6.  When [browser.close()] raises, [run_agent_with_debug] raises
    that exception, whatever the agent run did: a result obtained or
    an error recorded before is lost. *)
Theorem close_failure_masks_outcome (agent : Agent) (e' : exn) :
  In (Agent_run agent) (trace run) ->
  browser_close env (agent_browser agent) = Raises e' ->
  answer run = Raises e'.
Proof.
  intros I C.
  destruct (run_reached env query model_choice api_key headless status_box
              agent I)
    as (llm & msg & tail & _ & _ & B & A & _).
  rewrite A, <- B, C. reflexivity.
Qed.

(** X7.  The [except] clause also covers [history.final_result()]:
    when the agent run returns but [final_result()] raises an instance
    of [Exception], and [browser.close()] returns, the pair returned is
    [None] with the string form of that exception as the only error. *)
Theorem final_result_failure_is_recorded
    (agent : Agent) (history : AgentHistoryList) (e : exn) :
  In (Agent_run agent) (trace run) ->
  browser_close env (agent_browser agent) = Returns tt ->
  agent_run env agent = Returns history ->
  final_result history = Raises e ->
  is_Exception e = true ->
  answer run = Returns (None, [exn_str e]).
Proof.
  intros I C R F X.
  destruct (run_reached env query model_choice api_key headless status_box
              agent I)
    as (llm & msg & tail & _ & _ & B & A & _).
  rewrite A, <- B, C, R, F, X. reflexivity.
Qed.

(** X8.  The pair returned by [run_agent_with_debug] has one of two
    shapes: a result with no error, or [None] with exactly one error,
    the string form of an instance of [Exception].  The error list
    never has more than one element. *)
Theorem returned_pair_shape (r : option str) (errors : list str) :
  answer run = Returns (r, errors) ->
  (errors = []
   \/ (r = None
       /\ exists e : exn, is_Exception e = true /\ errors = [exn_str e]))
  /\ (List.length errors <= 1)%nat.
Proof.
  intros R.
  destruct (run_returned env query model_choice api_key headless status_box
              _ R) as (agent & I).
  destruct (run_reached env query model_choice api_key headless status_box
              agent I)
    as (llm & msg & tail & _ & _ & _ & A & _).
  revert R. rewrite A. clear A.
  destruct (browser_close env _); [|discriminate].
  destruct (agent_run env agent) as [history|e].
  - destruct (final_result history) as [r0|e].
    + intros E. injection E as <- <-. split; [left; reflexivity|simpl; lia].
    + destruct (is_Exception e) eqn:X; [|discriminate].
      intros E. injection E as <- <-. split; [right; eauto|simpl; lia].
  - destruct (is_Exception e) eqn:X; [|discriminate].
    intros E. injection E as <- <-. split; [right; eauto|simpl; lia].
Qed.


(** X15.  The [finally] block protects only the agent run: when a call
    before the [try] statement raises, [run_agent_with_debug] raises
    without calling [browser.close()], also when the browser has been
    constructed already. *)
Theorem setup_failure_leaves_browser_open :
  (forall a : Agent, ~ In (Agent_run a) (trace run)) ->
  count_close (trace run) = 0%nat
  /\ (exists e : exn, answer run = Raises e)
  /\ ((exists a : Agent, In (New_Agent a) (trace run)) ->
      In (New_Browser browser0) (trace run)
      /\ new_Browser env browser0 = Returns tt).
Proof.
  intros N.
  destruct (run_cases env query model_choice api_key headless status_box)
    as [(e0 & llm & agent & msg & setup & T & A & _ & _ & S)
       |(llm & agent & msg & tail & T & _)].
  - rewrite T.
    destruct S as [(-> & X)|[(-> & _ & X)|[(-> & _ & B & X)|(-> & _ & B & _ & X)]]];
      (split; [reflexivity|]); (split; [eauto|]);
      intros (a & I); in_cases I; (split; [simpl; auto|exact B]).
  - destruct (N agent). rewrite T. simpl. auto 10.
Qed.

End RunMore.

(** ** [main] *)

Section MainMore.

Variable env : world.
Variable ss : session_state.

Local Abbreviation api_key :=
  (match api_key_input ss with Some s => s | None => [] end).
Local Abbreviation model :=
  (nth match model_select ss with Some i => i | None => 0%nat end model_options
       (hd [] model_options)).
Local Abbreviation headless :=
  (match headless_check ss with
   | Some b => b
   | None => str_eqb (platform_system env) (py "Linux")
   end).
Local Abbreviation query :=
  (match meme_query_input ss with
   | Some s => s
   | None => py "Programmers working on friday"
   end).
Local Abbreviation run :=
  (run_agent_with_debug env query model api_key headless Placeholder).

(** How a handler run that reaches the call ends. *)
Lemma main_clicked_answer :
  run_button ss = true -> api_key <> [] ->
  answer (main env ss) =
    match answer run with
    | Returns _ => Returns tt
    | Raises e => if is_Exception e then Returns tt else Raises e
    end.
Proof.
  intros C K. unfold main, st_text_input, st_selectbox, st_checkbox, st_button,
    st_stop, st_empty, st_expander, try_except, trace, answer.
  unfold bind at 1 2 3 4 5 6 7 8. unfold emit, call, ret.
  cbn [fst snd app]. rewrite C.
  rewrite (proj2 (truthy_str_true _) K).
  cbn [negb]. unfold bind. cbn [fst snd app].
  destruct run as [t [[r errors]|e]]; cbn [fst snd app].
  - destruct (render_spec env (Expander (128221%N :: py " Live Logs") true)
                r errors) as [A _].
    unfold answer in A.
    destruct (render env _ (r, errors)) as [t' a'].
    cbn [fst snd] in *. subst a'. reflexivity.
  - destruct (is_Exception e); reflexivity.
Qed.

(** X1.  Without a click on the button the handler only draws the page:
    it returns, makes eight Streamlit calls, all of them page or widget
    calls, and neither validates the key nor enters the agent call. *)
Theorem handler_idle_without_click :
  run_button ss = false ->
  answer (main env ss) = Returns tt
  /\ List.length (trace (main env ss)) = 8%nat
  /\ forall ev : event,
       In ev (trace (main env ss)) ->
       match ev with
       | St_set_page_config _ _ | St_title _ | St_header _
       | St_text_input _ _ | St_selectbox _ _ | St_checkbox _ _
       | St_button _ => True
       | _ => False
       end.
Proof.
  intros C. rewrite (main_not_clicked env ss C). cbn [answer trace fst snd].
  split; [reflexivity|]. split; [reflexivity|].
  intros ev H. in_cases H; subst ev; exact I.
Qed.

(** X2.  The handler lets no instance of [Exception] escape: when
    [main] raises, the exception is the script-control exception of
    [st.stop()] or an exception that is not an instance of [Exception]
    raised inside the agent call. *)
Theorem handler_lets_no_Exception_escape (e : exn) :
  answer (main env ss) = Raises e ->
  is_Exception e = false
  /\ (e = StopException /\ api_key = []
      \/ exists (q m k : str) (h : bool),
           In (Enter_run_agent_with_debug q m k h) (trace (main env ss))
           /\ answer (run_agent_with_debug env q m k h Placeholder) = Raises e).
Proof.
  destruct (run_button ss) eqn:C.
  2: { rewrite (main_not_clicked env ss C). discriminate. }
  destruct (truthy_str api_key) eqn:K.
  2: { assert (K' : api_key = []) by (destruct api_key; [reflexivity|discriminate]).
       rewrite (main_no_key env ss C K'). cbn [answer snd].
       intros H. injection H as <-. split; [reflexivity|]. left. auto. }
  apply truthy_str_true in K.
  rewrite (main_clicked_answer C K).
  destruct (answer run) as [p|e0] eqn:A; [discriminate|].
  destruct (is_Exception e0) eqn:X; [discriminate|].
  intros H. injection H as <-. split; [exact X|]. right.
  exists query, model, api_key, headless. split; [|exact A].
  rewrite (main_clicked env ss C K). rewrite !in_app_iff. right. right. left.
  destruct (run_client_call env query model api_key headless Placeholder)
    as (llm & rest & T & _).
  rewrite T. left. reflexivity.
Qed.

(** X3.  When the agent call raises an instance of [Exception], the
    handler displays [Critical Error: ] followed by the string form of
    the exception and returns.  It displays no other error, no logs, no
    result and no warning. *)
Theorem handler_reports_critical_error (q m k : str) (h : bool) (e : exn) :
  In (Enter_run_agent_with_debug q m k h) (trace (main env ss)) ->
  answer (run_agent_with_debug env q m k h Placeholder) = Raises e ->
  is_Exception e = true ->
  answer (main env ss) = Returns tt
  /\ (forall body : str,
        In (St_error body) (trace (main env ss)) <->
        body = py "Critical Error: " ++ exn_str e)
  /\ forall ev : event,
       In ev (trace (main env ss)) ->
       match ev with
       | Element_code _ _ | St_json _ | St_success _ | St_markdown _
       | St_image _ | St_warning _ | St_stop => False
       | _ => True
       end.
Proof.
  intros E A X. apply main_enter in E.
  destruct E as (C & K & -> & -> & -> & ->).
  rewrite (main_clicked_answer C K), (main_clicked env ss C K), A, X.
  split; [reflexivity|]. split.
  - intros body. rewrite !in_app_iff. split.
    + intros [H|[H|[H|H]]].
      * in_cases H.
      * in_cases H.
      * apply run_events in H.
        destruct H as [H|[(?&H)|[H|[(?&H)|[(?&H)|[(?&H)|[H|H]]]]]]];
          discriminate H.
      * in_cases H. injection H as <-. reflexivity.
    + intros ->. right. right. right. left. reflexivity.
  - intros ev H. rewrite !in_app_iff in H. destruct H as [H|[H|[H|H]]].
    + in_cases H; subst ev; exact I.
    + in_cases H; subst ev; exact I.
    + apply run_events in H.
      destruct H as [H|[(?&H)|[H|[(?&H)|[(?&H)|[(?&H)|[H|H]]]]]]];
        subst ev; exact I.
    + in_cases H; subst ev; exact I.
Qed.

(** X4.  When the agent call raises an exception that is not an
    instance of [Exception], the handler raises it and displays
    nothing about the run: no error, no logs, no result, no warning. *)
Theorem handler_propagates_other_exceptions
    (q m k : str) (h : bool) (e : exn) :
  In (Enter_run_agent_with_debug q m k h) (trace (main env ss)) ->
  answer (run_agent_with_debug env q m k h Placeholder) = Raises e ->
  is_Exception e = false ->
  answer (main env ss) = Raises e
  /\ forall ev : event,
       In ev (trace (main env ss)) ->
       match ev with
       | St_error _ | Element_code _ _ | St_json _ | St_success _
       | St_markdown _ | St_image _ | St_warning _ | St_stop => False
       | _ => True
       end.
Proof.
  intros E A X. apply main_enter in E.
  destruct E as (C & K & -> & -> & -> & ->).
  rewrite (main_clicked_answer C K), (main_clicked env ss C K), A, X.
  split; [reflexivity|].
  intros ev H. rewrite !in_app_iff in H. destruct H as [H|[H|[H|H]]].
  - in_cases H; subst ev; exact I.
  - in_cases H; subst ev; exact I.
  - apply run_events in H.
    destruct H as [H|[(?&H)|[H|[(?&H)|[(?&H)|[(?&H)|[H|H]]]]]]];
      subst ev; exact I.
  - in_cases H.
Qed.

(** X10.  The text captured from standard output is displayed, in the
    log expander, exactly when the agent call returned a pair; when the
    call raises, the captured text is not displayed at all. *)
Theorem logs_shown_when_call_returned (q m k : str) (h : bool) :
  In (Enter_run_agent_with_debug q m k h) (trace (main env ss)) ->
  ((exists (el : element) (body : str),
      In (Element_code el body) (trace (main env ss))) <->
   exists returned : option str * list str,
     answer (run_agent_with_debug env q m k h Placeholder) = Returns returned)
  /\ forall (el : element) (body : str),
       In (Element_code el body) (trace (main env ss)) ->
       el = Expander (128221%N :: py " Live Logs") true
       /\ body = captured_stdout env.
Proof.
  intros E. apply main_enter in E.
  destruct E as (C & K & -> & -> & -> & ->).
  rewrite (main_clicked env ss C K).
  assert (P : forall (el : element) (body : str),
             In (Element_code el body)
                ([St_set_page_config (py "AI Meme Debugger") [128030%N];
                  St_title (128030%N :: py " AI Meme Generator (Fixed)");
                  St_header (py "Settings");
                  St_text_input (py "OpenRouter Key") [];
                  St_selectbox (py "Model") model_options;
                  St_checkbox (py "Headless Mode")
                    (str_eqb (platform_system env) (py "Linux"));
                  St_text_input (py "Meme Prompt")
                    (py "Programmers working on friday");
                  St_button (py "Run Agent")]
                 ++ [St_empty; St_expander (128221%N :: py " Live Logs") true;
                     St_spinner (py "Agent is working...")]
                 ++ trace run
                 ++ match answer run with
                    | Returns returned =>
                        trace (render env
                                 (Expander (128221%N :: py " Live Logs") true)
                                 returned)
                    | Raises e =>
                        if is_Exception e
                        then [St_error (py "Critical Error: " ++ exn_str e)]
                        else []
                    end) ->
             el = Expander (128221%N :: py " Live Logs") true
             /\ body = captured_stdout env
             /\ exists returned, answer run = Returns returned).
  { intros el body H. rewrite !in_app_iff in H. destruct H as [H|[H|[H|H]]].
    - in_cases H.
    - in_cases H.
    - apply run_events in H.
      destruct H as [H|[(?&H)|[H|[(?&H)|[(?&H)|[(?&H)|[H|H]]]]]]];
        discriminate H.
    - destruct (answer run) as [[r errors]|e].
      + rewrite (proj2 (render_spec _ _ _ _)) in H.
        destruct errors, r as [[|]|]; try destruct (re_search _ _ _);
          in_cases H; injection H as <- <-; eauto.
      + destruct (is_Exception e); in_cases H. }
  split; [split|].
  - intros (el & body & H). now apply P in H.
  - intros ([r errors] & A). rewrite A.
    exists (Expander (128221%N :: py " Live Logs") true), (captured_stdout env).
    rewrite (proj2 (render_spec _ _ _ _)). rewrite !in_app_iff.
    right. right. right. left. reflexivity.
  - intros el body H. apply P in H. tauto.
Qed.

(** X14.  The client the handler constructs talks to OpenRouter with
    the key typed in the sidebar, which is not empty, and with the
    model and temperature of the dropdown option chosen; with the
    dropdown untouched this is the model of ["Deepseek"]. *)
Theorem handler_client_configuration (llm : ChatOpenAI) :
  In (New_ChatOpenAI llm) (trace (main env ss)) ->
  run_button ss = true
  /\ llm_base_url llm = py "https://openrouter.ai/api/v1"
  /\ llm_api_key llm = api_key
  /\ llm_api_key llm <> []
  /\ (llm_model llm, llm_temperature llm) = configure_model model
  /\ (model_select ss = None ->
      llm_model llm = py "nex-agi/deepseek-v3.1-nex-n1:free"
      /\ llm_temperature llm = 0.3%float).
Proof.
  intros H. destruct (run_button ss) eqn:C.
  2: { rewrite (main_not_clicked env ss C) in H. in_cases H. }
  destruct (truthy_str api_key) eqn:K.
  2: { assert (K' : api_key = []) by (destruct api_key; [reflexivity|discriminate]).
       rewrite (main_no_key env ss C K') in H. in_cases H. }
  apply truthy_str_true in K.
  rewrite (main_clicked env ss C K) in H. rewrite !in_app_iff in H.
  assert (L : In (New_ChatOpenAI llm) (trace run)).
  { destruct H as [H|[H|[H|H]]]; [in_cases H|in_cases H|exact H|].
    destruct (answer run) as [[r errors]|e].
    - rewrite (proj2 (render_spec _ _ _ _)) in H.
      destruct errors, r as [[|]|]; try destruct (re_search _ _ _); in_cases H.
    - destruct (is_Exception e); in_cases H. }
  apply run_client in L. subst llm. cbn [llm_base_url llm_api_key llm_model
    llm_temperature].
  split; [reflexivity|]. split; [reflexivity|]. split; [reflexivity|].
  split; [exact K|]. split; [now destruct (configure_model _)|].
  intros S. rewrite S. split; reflexivity.
Qed.

End MainMore.

(** ** The task text and the image link *)

(** X11.  The task text determines the query: two different queries
    never give the same task, and the task is longer than the query by
    a fixed number of characters. *)
Theorem task_determines_query (query1 query2 : str) :
  (query1 <> query2 -> task query1 <> task query2)
  /\ List.length (task query1) = (List.length query1 + 477)%nat.
Proof.
  split.
  - intros N E. apply N. unfold task in E.
    rewrite <- !app_assoc in E. apply app_inv_head in E.
    rewrite !app_assoc in E. repeat apply app_inv_tail in E. exact E.
  - unfold task. rewrite !length_app.
    repeat match goal with
           | |- context [List.length (py ?x)] =>
               let v := eval vm_compute in (List.length (py x)) in
               change (List.length (py x)) with v
           end.
    lia.
Qed.

Section PatternMore.

Variable env : world.

(** X12.  Searching the link that a search returned gives the same
    link again. *)
Theorem re_search_idempotent (s u : str) :
  re_search env url_pattern s = Some u ->
  re_search env url_pattern u = Some u.
Proof.
  intros H. apply re_search_url in H. destruct H as (i & I & _).
  apply re_search_hit, match_here_url. split; [exact I|].
  exists []. now rewrite app_nil_r.
Qed.

(** X13.  A link that the search finds in a text is not hidden by what
    surrounds the text: with any text before and after, the search
    still finds a link. *)
Theorem re_search_in_context (s pre post : str) :
  re_search env url_pattern s <> None ->
  re_search env url_pattern (pre ++ s ++ post) <> None.
Proof.
  intros H N. apply re_search_url_none in N. apply H.
  apply re_search_url_none. intros (u & i & I & (a & b & -> & L)).
  apply N. exists u, (List.length (pre ++ a)). split; [exact I|].
  exists (pre ++ a), (b ++ post). split; [|reflexivity].
  now rewrite <- !app_assoc.
Qed.

End PatternMore.

(** ** The further properties at sample runs *)

Lemma handler_idle_without_click_witness :
  answer (main world_meme session_idle) = Returns tt
  /\ List.length (trace (main world_meme session_idle)) = 8%nat.
Proof.
  destruct (handler_idle_without_click world_meme session_idle eq_refl)
    as (A & L & _).
  split; [exact A | exact L].
Defined.

Lemma handler_lets_no_Exception_escape_witness :
  answer (main world_cancelled session_clicked) = Raises CancelledError
  /\ is_Exception CancelledError = false.
Proof.
  split; [reflexivity|].
  apply (proj1 (handler_lets_no_Exception_escape world_cancelled
                  session_clicked CancelledError eq_refl)).
Defined.

Lemma handler_reports_critical_error_witness :
  answer (main world_close_fails session_clicked) = Returns tt
  /\ In (St_error (py "Critical Error: Browser has been closed"))
        (trace (main world_close_fails session_clicked)).
Proof.
  destruct (handler_reports_critical_error world_close_fails session_clicked
              (py "Programmers working on friday") (py "Claude")
              (py "sk-or-v1-0000") true BrowserGone
              (session_clicked_enters _ _) eq_refl eq_refl)
    as (A & E & _).
  split; [exact A|]. apply E. reflexivity.
Defined.

Lemma handler_propagates_other_exceptions_witness :
  answer (main world_cancelled session_clicked) = Raises CancelledError.
Proof.
  apply (proj1 (handler_propagates_other_exceptions world_cancelled
                  session_clicked
                  (py "Programmers working on friday") (py "Claude")
                  (py "sk-or-v1-0000") true CancelledError
                  (session_clicked_enters _ _) eq_refl eq_refl)).
Defined.


Lemma close_failure_masks_outcome_witness :
  answer (run_agent_with_debug world_close_fails (py "cats") (py "Claude")
            (py "sk-or-v1-0000") true Placeholder)
  = Raises BrowserGone.
Proof.
  assert (I : exists a : Agent,
             In (Agent_run a)
                (trace (run_agent_with_debug world_close_fails (py "cats")
                          (py "Claude") (py "sk-or-v1-0000") true Placeholder)))
    by (eexists; cbv; do 5 right; left; reflexivity).
  destruct I as [a I].
  exact (close_failure_masks_outcome world_close_fails (py "cats") (py "Claude")
           (py "sk-or-v1-0000") true Placeholder a BrowserGone I eq_refl).
Defined.

Lemma final_result_failure_is_recorded_witness :
  answer (run_agent_with_debug world_no_final_result (py "cats") (py "Claude")
            (py "sk-or-v1-0000") true Placeholder)
  = Returns (None, [py "list index out of range"]).
Proof.
  assert (I : exists a : Agent,
             In (Agent_run a)
                (trace (run_agent_with_debug world_no_final_result (py "cats")
                          (py "Claude") (py "sk-or-v1-0000") true Placeholder)))
    by (eexists; cbv; do 5 right; left; reflexivity).
  destruct I as [a I].
  exact (final_result_failure_is_recorded world_no_final_result (py "cats")
           (py "Claude") (py "sk-or-v1-0000") true Placeholder a
           {| final_result := Raises HistoryError |} HistoryError
           I eq_refl eq_refl eq_refl eq_refl).
Defined.

Lemma returned_pair_shape_witness :
  (List.length [py "Timeout 30000ms exceeded."] <= 1)%nat.
Proof.
  apply (proj2 (returned_pair_shape world_timeout (py "cats") (py "Deepseek")
                  (py "sk-or-v1-0000") false Placeholder None
                  [py "Timeout 30000ms exceeded."] eq_refl)).
Defined.


Lemma setup_failure_leaves_browser_open_witness :
  count_close
    (trace (run_agent_with_debug world_no_agent (py "cats") (py "Claude")
              (py "sk-or-v1-0000") true Placeholder))
  = 0%nat
  /\ In (New_Browser {| config := {| headless_of := true |} |})
        (trace (run_agent_with_debug world_no_agent (py "cats") (py "Claude")
                  (py "sk-or-v1-0000") true Placeholder)).
Proof.
  assert (N : forall a : Agent,
             ~ In (Agent_run a)
                 (trace (run_agent_with_debug world_no_agent (py "cats")
                           (py "Claude") (py "sk-or-v1-0000") true
                           Placeholder)))
    by (intros a H; vm_compute in H; in_cases H).
  destruct (setup_failure_leaves_browser_open world_no_agent (py "cats")
              (py "Claude") (py "sk-or-v1-0000") true Placeholder N)
    as (C & _ & B).
  split; [exact C|]. apply B.
  eexists. cbv. do 3 right. left. reflexivity.
Defined.

Lemma logs_shown_when_call_returned_witness :
  exists (el : element) (body : str),
    In (Element_code el body) (trace (main world_meme session_clicked)).
Proof.
  apply (proj1 (logs_shown_when_call_returned world_meme session_clicked
                  (py "Programmers working on friday") (py "Claude")
                  (py "sk-or-v1-0000") true (session_clicked_enters _ _))).
  eexists. reflexivity.
Defined.

Lemma task_determines_query_witness : task (py "cats") <> task (py "dogs").
Proof.
  apply (proj1 (task_determines_query (py "cats") (py "dogs"))).
  vm_compute. discriminate.
Defined.

Lemma re_search_idempotent_witness :
  re_search world_meme url_pattern (py "https://i.imgflip.com/9x_k2a.jpg")
  = Some (py "https://i.imgflip.com/9x_k2a.jpg").
Proof.
  apply (re_search_idempotent world_meme
           (py "Here it is: https://i.imgflip.com/9x_k2a.jpg")).
  reflexivity.
Defined.

Lemma re_search_in_context_witness :
  re_search world_meme url_pattern
    (py "Done! " ++ py "https://i.imgflip.com/9x_k2a.jpg" ++ py " enjoy")
  <> None.
Proof.
  apply (re_search_in_context world_meme). vm_compute. discriminate.
Defined.

Lemma handler_client_configuration_witness :
  exists llm : ChatOpenAI,
    In (New_ChatOpenAI llm) (trace (main world_meme session_clicked))
    /\ llm_base_url llm = py "https://openrouter.ai/api/v1"
    /\ llm_api_key llm = py "sk-or-v1-0000".
Proof.
  assert (I : exists llm : ChatOpenAI,
             In (New_ChatOpenAI llm) (trace (main world_meme session_clicked)))
    by (eexists; cbv; do 12 right; left; reflexivity).
  destruct I as [llm I]. exists llm. split; [exact I|].
  destruct (handler_client_configuration world_meme session_clicked llm I)
    as (_ & U & K & _).
  split; [exact U | exact K].
Defined.
